(** * Fitness tracker (homework.py): a shallow embedding and its properties

    The module computes distance, mean speed and spent calories for three
    kinds of workout and formats a summary line.

    Python numbers are modelled as CPython has them: an [int] is an
    unbounded integer ([PInt]), a [float] an IEEE 754 binary64 value
    ([PFloat]) with signed zeros, infinities and NaN.  Every float operation
    returns the exact result rounded to nearest, ties to even, with overflow
    to an infinity; mixed [int]/[float] operations first convert the [int]
    (correctly rounded, [OverflowError] when out of range); [int * int] is
    exact and [int / int] is the correctly rounded quotient ([OverflowError]
    when out of range); a zero divisor raises [ZeroDivisionError].  The one
    library call, [x ** 2] on a float, is taken to be the correctly rounded
    square [x * x], and raises [OverflowError] when a finite [x] gives an
    infinite square (CPython's [float_pow] with C's [pow]).  Python
    exceptions are the [Err] branch of the result type [res]. *)

From Stdlib Require Import QArith Qabs Qround Qpower ZArith Bool String Ascii List Lia Lqa.
Import ListNotations.
Open Scope Q_scope.
Open Scope string_scope.

(** ** Exceptions and the result monad *)

Inductive exc : Type :=
| NotImplementedError (args : list string)
| ValueError (msg : string)
| TypeError (msg : string)
| KeyError (key : string)
| ZeroDivisionError
| OverflowError (msg : string).

Inductive res (A : Type) : Type :=
| Ok (a : A)
| Err (e : exc).
Arguments Ok {A} a.
Arguments Err {A} e.

Definition bind {A B : Type} (r : res A) (f : A -> res B) : res B :=
  match r with
  | Ok a => f a
  | Err e => Err e
  end.

Notation "x <- r ;; k" := (bind r (fun x => k))
  (at level 61, r at next level, right associativity).

(** ** IEEE 754 binary64 *)

(** Rounding of a positive rational [q] to 53 significant bits: [qexp q] is
    the exponent of the last kept bit ([ilog2 q - 52], at least [emin], the
    exponent of the subnormals), [rmant q] the significand rounded to
    nearest, ties to even, and [rval q] the rounded value. *)
Definition emin : Z := -1074.
Definition pow2 (e : Z) : Q := (2 # 1) ^ e.
Definition ilog2 (q : Q) : Z :=
  let k := (Z.log2 (Qnum q) - Z.log2 (Zpos (Qden q)))%Z in
  if Qle_bool (pow2 k) q then k else (k - 1)%Z.
Definition qexp (q : Q) : Z := Z.max emin (ilog2 q - 52).
Definition rne (x : Q) : Z :=
  let f := Qfloor x in
  match Qcompare (x - inject_Z f) (1 # 2) with
  | Lt => f
  | Gt => (f + 1)%Z
  | Eq => if Z.even f then f else (f + 1)%Z
  end.
Definition rmant (q : Q) : Z := rne (q / pow2 (qexp q)).
Definition rval (q : Q) : Q := inject_Z (rmant q) * pow2 (qexp q).

Definition ovf : Q := pow2 1024.

Inductive float : Type :=
| Zero (s : bool)
| Inf (s : bool)
| NaN
| Fin (s : bool) (m : positive) (e : Z).

Definition round_mag (s : bool) (a : Q) : float :=
  if Qle_bool ovf (rval a) then Inf s
  else match rmant a with
       | Zpos m => if Pos.eqb m (2 ^ 53) then Fin s (2 ^ 52) (qexp a + 1) else Fin s m (qexp a)
       | _ => Zero s
       end.

Definition round_result (zs : bool) (q : Q) : float :=
  match Qcompare q 0 with
  | Eq => Zero zs
  | Gt => round_mag false q
  | Lt => round_mag true (- q)
  end.

Definition sgn (s : bool) (a : Q) : Q := if s then - a else a.

Definition value (f : float) : Q :=
  match f with
  | Fin s m e => sgn s (inject_Z (Zpos m) * pow2 e)
  | _ => 0
  end.

Definition sign_bit (f : float) : bool :=
  match f with
  | Zero s | Inf s | Fin s _ _ => s
  | NaN => false
  end.

Definition is_fin (f : float) : bool :=
  match f with Zero _ | Fin _ _ _ => true | _ => false end.

Definition is_pos_fin (f : float) : bool :=
  match f with Fin false _ _ => true | _ => false end.

Definition fmul (x y : float) : float :=
  match x, y with
  | NaN, _ | _, NaN => NaN
  | Inf sx, Inf sy => Inf (xorb sx sy)
  | Inf _, Zero _ | Zero _, Inf _ => NaN
  | Inf sx, Fin sy _ _ | Fin sx _ _, Inf sy => Inf (xorb sx sy)
  | _, _ => round_result (xorb (sign_bit x) (sign_bit y)) (value x * value y)
  end.

Definition fdiv (x y : float) : float :=
  match x, y with
  | NaN, _ | _, NaN => NaN
  | Inf _, Inf _ => NaN
  | Inf sx, Zero sy | Inf sx, Fin sy _ _ => Inf (xorb sx sy)
  | Zero sx, Inf sy | Fin sx _ _, Inf sy => Zero (xorb sx sy)
  | Zero _, Zero _ => NaN
  | Fin sx _ _, Zero sy => Inf (xorb sx sy)
  | _, _ => round_result (xorb (sign_bit x) (sign_bit y)) (value x / value y)
  end.

Definition fadd (x y : float) : float :=
  match x, y with
  | NaN, _ | _, NaN => NaN
  | Inf sx, Inf sy => if Bool.eqb sx sy then Inf sx else NaN
  | Inf sx, _ => Inf sx
  | _, Inf sy => Inf sy
  | _, _ => round_result (andb (sign_bit x) (sign_bit y)) (value x + value y)
  end.

Inductive ext : Type := EFin (q : Q) | EPinf | ENinf.

Definition to_ext (f : float) : option ext :=
  match f with
  | Zero _ | Fin _ _ _ => Some (EFin (value f))
  | Inf s => Some (if s then ENinf else EPinf)
  | NaN => None
  end.

Definition ext_leb (a b : ext) : bool :=
  match a, b with
  | ENinf, _ => true
  | _, EPinf => true
  | EFin x, EFin y => Qle_bool x y
  | _, _ => false
  end.

Definition fle (x y : float) : bool :=
  match to_ext x, to_ext y with
  | Some a, Some b => ext_leb a b
  | _, _ => false
  end.

Definition round_ext (q : Q) : ext :=
  match Qcompare q 0 with
  | Eq => EFin 0
  | Gt => if Qle_bool ovf (rval q) then EPinf else EFin (rval q)
  | Lt => if Qle_bool ovf (rval (- q)) then ENinf else EFin (- rval (- q))
  end.

Definition ext_eqv (a b : ext) : Prop :=
  match a, b with
  | EFin x, EFin y => x == y
  | EPinf, EPinf | ENinf, ENinf => True
  | _, _ => False
  end.


(** Python's [<=], [<] and [==] on floats (false as soon as a NaN is
    involved; [-0.0 == 0.0]). *)
Definition flt (x y : float) : bool := fle x y && negb (fle y x).
Definition feq (x y : float) : bool := fle x y && fle y x.

Definition is_zero (f : float) : bool :=
  match f with Zero _ => true | _ => false end.

Definition is_inf (f : float) : bool :=
  match f with Inf _ => true | _ => false end.

(** The float denoted by the decimal literal [n / d] (correctly rounded,
    as CPython's parser does). *)
Definition lit (n : Z) (d : positive) : float := round_result false (n # d).

(** ** Python numbers *)

Inductive pynum : Type :=
| PInt (z : Z)
| PFloat (f : float).

(** [PyLong_AsDouble]: an [int] converted to the nearest float. *)
Definition int_to_float (z : Z) : res float :=
  match round_result false (inject_Z z) with
  | Inf _ => Err (OverflowError "int too large to convert to float")
  | f => Ok f
  end.

Definition to_float (x : pynum) : res float :=
  match x with
  | PInt z => int_to_float z
  | PFloat f => Ok f
  end.

(** A float operation on two Python numbers: both operands converted,
    left one first. *)
Definition float_binop (op : float -> float -> float) (x y : pynum) : res pynum :=
  fx <- to_float x ;;
  fy <- to_float y ;;
  Ok (PFloat (op fx fy)).

(** [x * y] *)
Definition py_mul (x y : pynum) : res pynum :=
  match x, y with
  | PInt a, PInt b => Ok (PInt (a * b))
  | _, _ => float_binop fmul x y
  end.

(** [x + y] *)
Definition py_add (x y : pynum) : res pynum :=
  match x, y with
  | PInt a, PInt b => Ok (PInt (a + b))
  | _, _ => float_binop fadd x y
  end.

(** [int.__truediv__] ([long_true_divide]): the correctly rounded quotient;
    a zero quotient carries the sign of [a / b]. *)
Definition int_truediv (a b : Z) : res pynum :=
  if (b =? 0)%Z then Err ZeroDivisionError
  else match round_result (xorb (a <? 0)%Z (b <? 0)%Z) (inject_Z a / inject_Z b) with
       | Inf _ => Err (OverflowError "integer division result too large for a float")
       | f => Ok (PFloat f)
       end.

(** [x / y] *)
Definition py_truediv (x y : pynum) : res pynum :=
  match x, y with
  | PInt a, PInt b => int_truediv a b
  | _, _ =>
      fx <- to_float x ;;
      fy <- to_float y ;;
      if is_zero fy then Err ZeroDivisionError else Ok (PFloat (fdiv fx fy))
  end.

(** [float_pow(x, 2)]: infinities give [inf], zeros [0.0], NaN itself;
    otherwise the square, with [OverflowError] (errno [ERANGE]) when it
    overflows. *)
Definition float_square (x : float) : res float :=
  match x with
  | Fin _ _ _ =>
      match fmul x x with
      | Inf _ => Err (OverflowError "(34, 'Numerical result out of range')")
      | r => Ok r
      end
  | Inf _ => Ok (Inf false)
  | Zero _ => Ok (Zero false)
  | NaN => Ok NaN
  end.

(** [x ** 2] *)
Definition py_pow2 (x : pynum) : res pynum :=
  match x with
  | PInt a => Ok (PInt (a * a))
  | PFloat f => r <- float_square f ;; Ok (PFloat r)
  end.

(** ** The training classes *)

(** One constructor per class; the fields are the [__init__] arguments in
    their declaration order. *)
Inductive Training : Type :=
| Base (action duration weight : pynum)
| Running (action duration weight : pynum)
| SportsWalking (action duration weight height : pynum)
| Swimming (action duration weight length_pool count_pool : pynum).

Definition action (t : Training) : pynum :=
  match t with
  | Base a _ _ | Running a _ _ | SportsWalking a _ _ _ | Swimming a _ _ _ _ => a
  end.

Definition duration (t : Training) : pynum :=
  match t with
  | Base _ d _ | Running _ d _ | SportsWalking _ d _ _ | Swimming _ d _ _ _ => d
  end.

Definition weight (t : Training) : pynum :=
  match t with
  | Base _ _ w | Running _ _ w | SportsWalking _ _ w _ | Swimming _ _ w _ _ => w
  end.

(** [self.__class__.__name__] *)
Definition class_name (t : Training) : string :=
  match t with
  | Base _ _ _ => "Training"
  | Running _ _ _ => "Running"
  | SportsWalking _ _ _ _ => "SportsWalking"
  | Swimming _ _ _ _ _ => "Swimming"
  end.

(** Class attributes.  [LEN_STEP] is overridden by [Swimming]. *)
Definition LEN_STEP (t : Training) : pynum :=
  match t with
  | Swimming _ _ _ _ _ => PFloat (lit 138 100)
  | _ => PFloat (lit 65 100)
  end.
Definition M_IN_KM : pynum := PInt 1000.
Definition MIN_IN_HOUR : pynum := PInt 60.

Definition CALORIES_MEAN_SPEED_MULTIPLIER : pynum := PInt 18.
Definition CALORIES_MEAN_SPEED_SHIFT : pynum := PFloat (lit 179 100).

Definition COEF_KMH_MS : pynum := PFloat (lit 278 1000).
Definition WEIGHT_COEF1 : pynum := PFloat (lit 35 1000).
Definition WEIGHT_COEF2 : pynum := PFloat (lit 29 1000).
Definition M_TO_SM : pynum := PInt 100.

Definition SWIM_CONST1 : pynum := PFloat (lit 11 10).
Definition SWIM_CONST2 : pynum := PInt 2.

(** [Training.get_distance], inherited by every subclass:
    [self.action * self.LEN_STEP / self.M_IN_KM]. *)
Definition get_distance (t : Training) : res pynum :=
  x <- py_mul (action t) (LEN_STEP t) ;;
  py_truediv x M_IN_KM.

(** [Training.get_mean_speed], overridden by [Swimming.get_mean_speed]
    ([self.length_pool * self.count_pool / self.M_IN_KM / self.duration]). *)
Definition get_mean_speed (t : Training) : res pynum :=
  match t with
  | Swimming _ d _ lp cp =>
      x <- py_mul lp cp ;;
      y <- py_truediv x M_IN_KM ;;
      py_truediv y d
  | _ =>
      dist <- get_distance t ;;
      py_truediv dist (duration t)
  end.

(** [get_spent_calories]: the base method raises, each subclass overrides;
    the operations in Python's evaluation order. *)
Definition get_spent_calories (t : Training) : res pynum :=
  match t with
  | Base _ _ _ =>
      Err (NotImplementedError
             ["Метод get_spent_calories не был переопределен в классе ";
              class_name t])
  | Running _ d w =>
      ms <- get_mean_speed t ;;
      x1 <- py_mul CALORIES_MEAN_SPEED_MULTIPLIER ms ;;
      x2 <- py_add x1 CALORIES_MEAN_SPEED_SHIFT ;;
      x3 <- py_mul x2 w ;;
      x4 <- py_truediv x3 M_IN_KM ;;
      x5 <- py_mul x4 d ;;
      py_mul x5 MIN_IN_HOUR
  | SportsWalking _ d w h =>
      ms <- get_mean_speed t ;;
      si_av_speed <- py_mul ms COEF_KMH_MS ;;
      si_height <- py_truediv h M_TO_SM ;;
      k <- py_mul WEIGHT_COEF1 w ;;
      s <- py_pow2 si_av_speed ;;
      y1 <- py_truediv s si_height ;;
      y2 <- py_mul y1 WEIGHT_COEF2 ;;
      y3 <- py_mul y2 w ;;
      z <- py_add k y3 ;;
      z2 <- py_mul z d ;;
      py_mul z2 MIN_IN_HOUR
  | Swimming _ d w _ _ =>
      ms <- get_mean_speed t ;;
      x1 <- py_add ms SWIM_CONST1 ;;
      x2 <- py_mul x1 SWIM_CONST2 ;;
      x3 <- py_mul x2 w ;;
      py_mul x3 d
  end.

(** ** [InfoMessage] and [str.format] *)

Record InfoMessage : Type := mkInfoMessage {
  training_type : string;
  info_duration : pynum;
  distance : pynum;
  speed : pynum;
  calories : pynum
}.

Definition MESSAGE : string :=
  "Тип тренировки: {training_type}; " ++
  "Длительность: {duration:.3f} ч.; " ++
  "Дистанция: {distance:.3f} км; " ++
  "Ср. скорость: {speed:.3f} км/ч; " ++
  "Потрачено ккал: {calories:.3f}.".

(** Values found in [asdict(self)]. *)
Inductive pyval : Type :=
| VStr (s : string)
| VNum (x : pynum).

(** [dataclasses.asdict]: the fields in declaration order, [MESSAGE] last. *)
Definition asdict (m : InfoMessage) : list (string * pyval) :=
  [("training_type", VStr (training_type m));
   ("duration", VNum (info_duration m));
   ("distance", VNum (distance m));
   ("speed", VNum (speed m));
   ("calories", VNum (calories m));
   ("MESSAGE", VStr MESSAGE)].

(** Rounding of a rational to an integer, ties to even. *)
Definition round_half_even (q : Q) : Z :=
  let n := Qnum q in
  let d := Zpos (Qden q) in
  let fl := (n / d)%Z in
  let r := (n mod d)%Z in
  match Z.compare (2 * r) d with
  | Lt => fl
  | Gt => (fl + 1)%Z
  | Eq => if Z.even fl then fl else (fl + 1)%Z
  end.

Definition digit_char (n : Z) : ascii := ascii_of_nat (48 + Z.to_nat n).

(** Decimal digits of [n >= 0], most significant first. *)
Fixpoint z_digits (fuel : nat) (n : Z) (acc : string) : string :=
  match fuel with
  | O => String (digit_char n) acc
  | S fuel' =>
      if (n <? 10)%Z then String (digit_char n) acc
      else z_digits fuel' (n / 10)%Z (String (digit_char (n mod 10)) acc)
  end.

Definition z_to_decimal (n : Z) : string := z_digits (Z.to_nat n) n "".

(** The last [p] decimal digits of [n >= 0], zero-padded on the left. *)
Fixpoint frac_digits (p : nat) (n : Z) (acc : string) : string :=
  match p with
  | O => acc
  | S p' => frac_digits p' (n / 10)%Z (String (digit_char (n mod 10)) acc)
  end.

(** The digits of a magnitude [q >= 0] rounded to [p] decimals, ties to
    even: the integer part, a point and exactly [p] fractional digits. *)
Definition fmt_fixed (p : nat) (q : Q) : string :=
  let n := round_half_even (q * inject_Z (10 ^ Z.of_nat p)) in
  let scale := (10 ^ Z.of_nat p)%Z in
  match p with
  | O => z_to_decimal n
  | S _ => z_to_decimal (n / scale)%Z ++ "." ++ frac_digits p (n mod scale)%Z ""
  end.

Definition sign_str (s : bool) : string := if s then "-" else "".

(** [format(x, '.Nf')] for a float ([PyOS_double_to_string] in mode 3):
    a '-' when the sign bit is set (also for [-0.0] and for values that
    round to zero), then the exact value rounded to [p] decimals;
    "inf", "-inf" and "nan" for the special values (a NaN never gets a
    sign). *)
Definition fmt_float (p : nat) (f : float) : string :=
  match f with
  | NaN => "nan"
  | Inf s => sign_str s ++ "inf"
  | Zero s => sign_str s ++ fmt_fixed p 0
  | Fin s m e => sign_str s ++ fmt_fixed p (inject_Z (Zpos m) * pow2 e)
  end.

(** Replacement fields of a format string. *)
Inductive piece : Type :=
| Lit (s : string)
| Field (name spec : string).

Inductive pmode : Type :=
| InLit (acc : string)
| InName (acc : string)
| InSpec (name acc : string).

Definition snoc (s : string) (c : ascii) : string := s ++ String c "".

Definition cons_lit (acc : string) (r : option (list piece)) : option (list piece) :=
  match r with
  | Some ps => Some (if String.eqb acc "" then ps else Lit acc :: ps)
  | None => None
  end.

Definition cons_piece (p : piece) (r : option (list piece)) : option (list piece) :=
  match r with
  | Some ps => Some (p :: ps)
  | None => None
  end.

(** Parsing of a format string, '{' name [':' spec] '}' fields between
    literal text (the template has no doubled braces). *)
Fixpoint parse_fmt (m : pmode) (s : string) : option (list piece) :=
  match s with
  | EmptyString =>
      match m with
      | InLit acc => cons_lit acc (Some [])
      | _ => None
      end
  | String c rest =>
      match m with
      | InLit acc =>
          if Ascii.eqb c "{"%char then cons_lit acc (parse_fmt (InName "") rest)
          else if Ascii.eqb c "}"%char then None
          else parse_fmt (InLit (snoc acc c)) rest
      | InName acc =>
          if Ascii.eqb c "}"%char then cons_piece (Field acc "") (parse_fmt (InLit "") rest)
          else if Ascii.eqb c ":"%char then parse_fmt (InSpec acc "") rest
          else if Ascii.eqb c "{"%char then None
          else parse_fmt (InName (snoc acc c)) rest
      | InSpec name acc =>
          if Ascii.eqb c "}"%char then cons_piece (Field name acc) (parse_fmt (InLit "") rest)
          else parse_fmt (InSpec name (snoc acc c)) rest
      end
  end.

Fixpoint lookup (k : string) (kw : list (string * pyval)) : option pyval :=
  match kw with
  | [] => None
  | (k', v) :: kw' => if String.eqb k k' then Some v else lookup k kw'
  end.

Definition is_digit (c : ascii) : bool :=
  let n := nat_of_ascii c in (Nat.leb 48 n && Nat.leb n 57)%bool.

(** [format(v, spec)] for the specs the module uses: none, and ".Nf"; an
    [int] formatted with 'f' is first converted to float. *)
Definition format_value (spec : string) (v : pyval) : res string :=
  match v, spec with
  | VStr s, EmptyString => Ok s
  | VNum x, String "." (String d (String "f" EmptyString)) =>
      if is_digit d then
        f <- to_float x ;;
        Ok (fmt_float (nat_of_ascii d - 48) f)
      else Err (ValueError "Invalid format specifier")
  | _, _ => Err (ValueError "Invalid format specifier")
  end.

Fixpoint render (ps : list piece) (kw : list (string * pyval)) : res string :=
  match ps with
  | [] => Ok ""
  | Lit s :: ps' => r <- render ps' kw ;; Ok (s ++ r)
  | Field name spec :: ps' =>
      match lookup name kw with
      | None => Err (KeyError name)
      | Some v =>
          s <- format_value spec v ;;
          r <- render ps' kw ;;
          Ok (s ++ r)
      end
  end.

(** [str.format(template, **kw)] *)
Definition str_format (template : string) (kw : list (string * pyval)) : res string :=
  match parse_fmt (InLit "") template with
  | Some ps => render ps kw
  | None => Err (ValueError "Single '}' encountered in format string")
  end.

(** [InfoMessage.get_message] *)
Definition get_message (m : InfoMessage) : res string :=
  str_format MESSAGE (asdict m).

(** [Training.show_training_info]: the arguments of [InfoMessage] are
    evaluated left to right. *)
Definition show_training_info (t : Training) : res InfoMessage :=
  dist <- get_distance t ;;
  sp <- get_mean_speed t ;;
  cal <- get_spent_calories t ;;
  Ok (mkInfoMessage (class_name t) (duration t) dist sp cal).

(** ** Dispatch and driver *)

(** The classes' constructors called with [*data]. *)
Definition make_Running (data : list pynum) : res Training :=
  match data with
  | [a; d; w] => Ok (Running a d w)
  | _ => Err (TypeError "Running.__init__: wrong number of arguments")
  end.

Definition make_SportsWalking (data : list pynum) : res Training :=
  match data with
  | [a; d; w; h] => Ok (SportsWalking a d w h)
  | _ => Err (TypeError "SportsWalking.__init__: wrong number of arguments")
  end.

Definition make_Swimming (data : list pynum) : res Training :=
  match data with
  | [a; d; w; lp; cp] => Ok (Swimming a d w lp cp)
  | _ => Err (TypeError "Swimming.__init__: wrong number of arguments")
  end.

Fixpoint dict_get {V : Type} (k : string) (d : list (string * V)) : option V :=
  match d with
  | [] => None
  | (k', v) :: d' => if String.eqb k k' then Some v else dict_get k d'
  end.

Definition workout_dict : list (string * (list pynum -> res Training)) :=
  [("SWM", make_Swimming); ("RUN", make_Running); ("WLK", make_SportsWalking)].

(** [read_package]: the membership test, then the constructor call. *)
Definition read_package (workout_type : string) (data : list pynum) : res Training :=
  match dict_get workout_type workout_dict with
  | None => Err (ValueError ("Неизвестный тип тренировки: " ++ workout_type))
  | Some cls => cls data
  end.

(** The printed text of one record: [show_training_info().get_message()]. *)
Definition process_record (training : Training) : res string :=
  m <- show_training_info training ;; get_message m.

(** [main]: one printed line, appended to the output written so far. *)
Inductive outcome : Type :=
| Finished (out : list string)
| Raised (e : exc) (out : list string).

Definition main (training : Training) (out : list string) : outcome :=
  match process_record training with
  | Ok line => Finished (out ++ [line])
  | Err e => Raised e out
  end.

(** The [__main__] loop over the packages; an exception ends the run. *)
Fixpoint run_packages (packages : list (string * list pynum)) (out : list string) : outcome :=
  match packages with
  | [] => Finished out
  | (workout_type, data) :: rest =>
      match read_package workout_type data with
      | Err e => Raised e out
      | Ok training =>
          match main training out with
          | Finished out' => run_packages rest out'
          | Raised e out' => Raised e out'
          end
      end
  end.

Definition packages : list (string * list pynum) :=
  [("SWM", [PInt 720; PInt 1; PInt 80; PInt 25; PInt 40]);
   ("RUN", [PInt 15000; PInt 1; PInt 75]);
   ("WLK", [PInt 9000; PInt 1; PInt 75; PInt 180])].

(** [InfoMessage(...).get_message()] after [read_package] and
    [show_training_info], as one computation. *)
Definition process (workout_type : string) (data : list pynum) : res string :=
  t <- read_package workout_type data ;;
  process_record t.

(** Python's [x == 0] on a number. *)
Definition py_is_zero (x : pynum) : bool :=
  match x with
  | PInt z => (z =? 0)%Z
  | PFloat f => is_zero f
  end.

Definition is_float (x : pynum) : bool :=
  match x with PFloat _ => true | PInt _ => false end.

(** A string of decimal digits. *)
Fixpoint all_digits (s : string) : bool :=
  match s with
  | EmptyString => true
  | String c s' => (is_digit c && all_digits s')%bool
  end.

(** A result that is not a [NotImplementedError]. *)
Definition not_nie {A : Type} (r : res A) : bool :=
  match r with
  | Err (NotImplementedError _) => false
  | _ => true
  end.

(** The line printed for one package of the [__main__] loop. *)
Definition package_line (p : string * list pynum) (line : string) : Prop :=
  process (fst p) (snd p) = Ok line.

(** ** Rounding: properties *)

Lemma pow2_pos (e : Z) : 0 < pow2 e.
Proof. apply Qpower_0_lt. reflexivity. Qed.

Lemma pow2_add (a b : Z) : pow2 (a + b) == pow2 a * pow2 b.
Proof. apply Qpower_plus. discriminate. Qed.

Lemma pow2_lt (a b : Z) : (a < b)%Z -> pow2 a < pow2 b.
Proof. intro H. apply Qpower_lt_compat_l; [exact H|reflexivity]. Qed.

Lemma pow2_le (a b : Z) : (a <= b)%Z -> pow2 a <= pow2 b.
Proof. intro H. apply Qpower_le_compat_l; [exact H|discriminate]. Qed.

Lemma pow2_lt_inv (a b : Z) : pow2 a < pow2 b -> (a < b)%Z.
Proof. intro H. eapply Qpower_lt_compat_l_inv; [exact H|reflexivity]. Qed.

Lemma pow2_Z (n : Z) : (0 <= n)%Z -> pow2 n == inject_Z (2 ^ n).
Proof. intro H. unfold pow2. rewrite (Zpower_Qpower 2 n H). reflexivity. Qed.

Lemma pow2_succ (e : Z) : pow2 (e + 1) == 2 * pow2 e.
Proof. rewrite pow2_add. unfold pow2 at 2. simpl. ring. Qed.

(** rounding to an integer, ties to even *)
Lemma rne_half (x : Q) :
  inject_Z (rne x) - (1 # 2) <= x /\ x <= inject_Z (rne x) + (1 # 2).
Proof.
  unfold rne. set (f := Qfloor x).
  assert (F1 : inject_Z f <= x) by apply Qfloor_le.
  assert (F2 : x < inject_Z (f + 1)) by apply Qlt_floor.
  rewrite inject_Z_plus in F2. change (inject_Z 1) with 1 in F2.
  destruct (Qcompare _ _) eqn:C.
  - apply Qeq_alt in C.
    destruct (Z.even f); [|rewrite inject_Z_plus]; change (inject_Z 1) with 1 in *; split; lra.
  - apply Qlt_alt in C. split; lra.
  - apply Qgt_alt in C. rewrite inject_Z_plus. change (inject_Z 1) with 1. split; lra.
Qed.

Lemma rne_comp (x y : Q) : x == y -> rne x = rne y.
Proof.
  intro E. unfold rne. rewrite (Qfloor_comp x y E).
  assert (E2 : x - inject_Z (Qfloor y) == y - inject_Z (Qfloor y)) by (rewrite E; reflexivity).
  rewrite (Qcompare_comp _ _ E2 (1#2) (1#2) (Qeq_refl _)). reflexivity.
Qed.

Lemma Z_of_Q_lt (a b : Z) : inject_Z a < inject_Z b + 1 -> (a <= b)%Z.
Proof.
  intro H. destruct (Z_le_gt_dec a b) as [L|G]; [exact L|].
  exfalso. assert (G' : (b + 1 <= a)%Z) by lia.
  rewrite Zle_Qle in G'. rewrite inject_Z_plus in G'. change (inject_Z 1) with 1 in G'. lra.
Qed.

Lemma rne_mono (x y : Q) : x <= y -> (rne x <= rne y)%Z.
Proof.
  intro H. destruct (Z_le_gt_dec (rne x) (rne y)) as [L|G]; [exact L|].
  exfalso.
  destruct (rne_half x) as [X1 X2]. destruct (rne_half y) as [Y1 Y2].
  assert (G' : (rne y + 1 <= rne x)%Z) by lia.
  rewrite Zle_Qle in G'. rewrite inject_Z_plus in G'. change (inject_Z 1) with 1 in G'.
  assert (E : x == y) by lra.
  rewrite (rne_comp x y E) in G. lia.
Qed.

Lemma rne_le_Z (x : Q) (z : Z) : x < inject_Z z + (1 # 2) -> (rne x <= z)%Z.
Proof.
  intro H. destruct (rne_half x) as [X1 X2]. apply Z_of_Q_lt. lra.
Qed.

Lemma rne_ge_Z (x : Q) (z : Z) : inject_Z z <= x -> (z <= rne x)%Z.
Proof.
  intro H. destruct (rne_half x) as [X1 X2]. apply Z_of_Q_lt. lra.
Qed.

Lemma rne_nonneg (x : Q) : 0 <= x -> (0 <= rne x)%Z.
Proof. intro H. apply rne_ge_Z. exact H. Qed.

(** the binade of a positive rational *)
Lemma Qdiv_le_compat (a b c d : Q) :
  0 <= a -> a <= b -> 0 < d -> d <= c -> a / c <= b / d.
Proof.
  intros Ha Hab Hd Hdc.
  assert (Hc : 0 < c) by lra.
  apply Qle_shift_div_r; [exact Hc|].
  assert (Hb : 0 <= b / d).
  { apply Qle_shift_div_l; [exact Hd|]. rewrite Qmult_0_l. lra. }
  assert (E : b / d * d == b) by (field; lra).
  apply (Qle_trans _ b); [exact Hab|].
  rewrite <- E at 1. rewrite (Qmult_comm (b / d) c), (Qmult_comm (b / d) d).
  apply Qmult_le_compat_r; assumption.
Qed.

Lemma pow2_div (a b : Z) : pow2 (a - b) == pow2 a / pow2 b.
Proof.
  assert (Hb := pow2_pos b).
  assert (E : pow2 a == pow2 (a - b) * pow2 b) by (rewrite <- pow2_add; f_equiv; ring).
  rewrite E. field. lra.
Qed.

Lemma ilog2_spec (q : Q) : 0 < q -> pow2 (ilog2 q) <= q /\ q < pow2 (ilog2 q + 1).
Proof.
  destruct q as [n d]. intro Hq.
  assert (Hn : (0 < n)%Z) by (unfold Qlt in Hq; simpl in Hq; lia).
  unfold ilog2. cbn [Qnum Qden].
  set (ln := Z.log2 n). set (ld := Z.log2 (Zpos d)).
  destruct (Z.log2_spec n Hn) as [N1 N2].
  destruct (Z.log2_spec (Zpos d) eq_refl) as [D1 D2].
  fold ln in N1, N2. fold ld in D1, D2.
  assert (Hln : (0 <= ln)%Z) by apply Z.log2_nonneg.
  assert (Hld : (0 <= ld)%Z) by apply Z.log2_nonneg.
  assert (Q1 : pow2 ln <= inject_Z n) by (rewrite pow2_Z by lia; rewrite <- Zle_Qle; exact N1).
  assert (Q2 : inject_Z n < pow2 (ln + 1)) by (rewrite pow2_Z by lia; rewrite <- Zlt_Qlt; rewrite <- Z.add_1_r in N2; exact N2).
  assert (Q3 : pow2 ld <= inject_Z (Zpos d)) by (rewrite pow2_Z by lia; rewrite <- Zle_Qle; exact D1).
  assert (Q4 : inject_Z (Zpos d) < pow2 (ld + 1)) by (rewrite pow2_Z by lia; rewrite <- Zlt_Qlt; rewrite <- Z.add_1_r in D2; exact D2).
  assert (Eq : n # d == inject_Z n / inject_Z (Zpos d)) by apply Qmake_Qdiv.
  assert (Hd : 0 < inject_Z (Zpos d)) by reflexivity.
  assert (Lo : pow2 (ln - ld - 1) <= n # d).
  { rewrite Eq. replace (ln - ld - 1)%Z with (ln - (ld + 1))%Z by ring.
    rewrite pow2_div. apply Qdiv_le_compat; try assumption.
    - apply Qlt_le_weak, pow2_pos.
    - apply Qlt_le_weak. exact Q4. }
  assert (Hi : n # d < pow2 (ln - ld + 1)).
  { rewrite Eq. replace (ln - ld + 1)%Z with ((ln + 1) - ld)%Z by ring.
    rewrite pow2_div.
    apply (Qlt_le_trans _ (pow2 (ln + 1) / inject_Z (Zpos d))).
    - unfold Qdiv. apply Qmult_lt_compat_r; [apply Qinv_lt_0_compat; exact Hd|exact Q2].
    - apply Qdiv_le_compat; try assumption.
      + apply Qlt_le_weak, pow2_pos.
      + apply Qle_refl.
      + apply pow2_pos. }
  destruct (Qle_bool (pow2 (ln - ld)) (n # d)) eqn:B.
  - apply Qle_bool_iff in B. split; [exact B|exact Hi].
  - split.
    + replace (ln - ld - 1)%Z with (ln - ld - 1)%Z by ring. exact Lo.
    + replace (ln - ld - 1 + 1)%Z with (ln - ld)%Z by ring.
      apply Qnot_le_lt. intro C. apply Qle_bool_iff in C. congruence.
Qed.

Lemma ilog2_mono (q1 q2 : Q) : 0 < q1 -> q1 <= q2 -> (ilog2 q1 <= ilog2 q2)%Z.
Proof.
  intros H1 H12.
  destruct (ilog2_spec q1 H1) as [A1 _].
  destruct (ilog2_spec q2 (Qlt_le_trans _ _ _ H1 H12)) as [_ B2].
  assert (L : pow2 (ilog2 q1) < pow2 (ilog2 q2 + 1)) by lra.
  apply pow2_lt_inv in L. lia.
Qed.

Lemma qexp_mono (q1 q2 : Q) : 0 < q1 -> q1 <= q2 -> (qexp q1 <= qexp q2)%Z.
Proof.
  intros H1 H12. unfold qexp. pose proof (ilog2_mono q1 q2 H1 H12). lia.
Qed.

Lemma scaled_lt (q : Q) : 0 < q -> q / pow2 (qexp q) < pow2 53.
Proof.
  intro Hq. destruct (ilog2_spec q Hq) as [_ B].
  set (E := ilog2 q) in *.
  assert (He : (E - 52 <= qexp q)%Z) by (unfold qexp; fold E; lia).
  apply Qlt_shift_div_r; [apply pow2_pos|].
  rewrite <- pow2_add.
  apply (Qlt_le_trans _ _ _ B). apply pow2_le. lia.
Qed.

Lemma scaled_ge (q : Q) : 0 < q -> (emin < qexp q)%Z -> pow2 52 <= q / pow2 (qexp q).
Proof.
  intros Hq He. destruct (ilog2_spec q Hq) as [A _].
  assert (E : qexp q = (ilog2 q - 52)%Z) by (unfold qexp in *; lia).
  apply Qle_shift_div_l; [apply pow2_pos|].
  rewrite <- pow2_add. rewrite E. replace (52 + (ilog2 q - 52))%Z with (ilog2 q) by ring.
  exact A.
Qed.

Lemma scaled_nonneg (q : Q) : 0 <= q -> 0 <= q / pow2 (qexp q).
Proof.
  intro Hq. apply Qle_shift_div_l; [apply pow2_pos|]. rewrite Qmult_0_l. exact Hq.
Qed.

Lemma rmant_le (q : Q) : 0 < q -> (rmant q <= 2 ^ 53)%Z.
Proof.
  intro Hq. unfold rmant. apply rne_le_Z.
  pose proof (scaled_lt q Hq) as S. rewrite (pow2_Z 53) in S by lia. lra.
Qed.

Lemma rmant_ge (q : Q) : 0 < q -> (emin < qexp q)%Z -> (2 ^ 52 <= rmant q)%Z.
Proof.
  intros Hq He. unfold rmant. apply rne_ge_Z.
  pose proof (scaled_ge q Hq He) as S. rewrite (pow2_Z 52) in S by lia. exact S.
Qed.

Lemma rmant_nonneg (q : Q) : 0 <= q -> (0 <= rmant q)%Z.
Proof. intro Hq. unfold rmant. apply rne_nonneg, scaled_nonneg, Hq. Qed.

Lemma rval_nonneg (q : Q) : 0 <= q -> 0 <= rval q.
Proof.
  intro Hq. unfold rval. apply (Qle_trans _ (0 * pow2 (qexp q))); [rewrite Qmult_0_l; apply Qle_refl|].
  apply Qmult_le_compat_r; [|apply Qlt_le_weak, pow2_pos].
  change 0 with (inject_Z 0). rewrite <- Zle_Qle. apply rmant_nonneg, Hq.
Qed.

Lemma rval_mono (q1 q2 : Q) : 0 < q1 -> q1 <= q2 -> rval q1 <= rval q2.
Proof.
  intros H1 H12.
  assert (H2 : 0 < q2) by lra.
  pose proof (qexp_mono q1 q2 H1 H12) as Le.
  unfold rval.
  destruct (Z.eq_dec (qexp q1) (qexp q2)) as [E|N].
  - unfold rmant. rewrite E.
    apply Qmult_le_compat_r; [|apply Qlt_le_weak, pow2_pos].
    rewrite <- Zle_Qle. apply rne_mono.
    apply Qmult_le_compat_r; [exact H12|].
    apply Qinv_le_0_compat, Qlt_le_weak, pow2_pos.
  - assert (Lt : (qexp q1 < qexp q2)%Z) by lia.
    assert (M1 := rmant_le q1 H1).
    assert (M2 := rmant_ge q2 H2 ltac:(unfold qexp at 1 in Lt; unfold qexp in *; lia)).
    apply (Qle_trans _ (pow2 (53 + qexp q1))).
    + rewrite pow2_add. rewrite (pow2_Z 53) by lia.
      apply Qmult_le_compat_r; [|apply Qlt_le_weak, pow2_pos].
      rewrite <- Zle_Qle. exact M1.
    + apply (Qle_trans _ (pow2 (52 + qexp q2))).
      * apply pow2_le. lia.
      * rewrite pow2_add. rewrite (pow2_Z 52) by lia.
        apply Qmult_le_compat_r; [|apply Qlt_le_weak, pow2_pos].
        rewrite <- Zle_Qle. exact M2.
Qed.


(** ** Float operations: order and monotonicity *)

Lemma ext_leb_eqv (a a' b b' : ext) :
  ext_eqv a a' -> ext_eqv b b' -> ext_leb a b = ext_leb a' b'.
Proof.
  destruct a, a', b, b'; cbn; try contradiction; intros E1 E2; try reflexivity.
  destruct (Qle_bool q q1) eqn:B1; destruct (Qle_bool q0 q2) eqn:B2; try reflexivity.
  - apply Qle_bool_iff in B1. rewrite E1, E2 in B1. apply Qle_bool_iff in B1. congruence.
  - apply Qle_bool_iff in B2. rewrite <- E1, <- E2 in B2. apply Qle_bool_iff in B2. congruence.
Qed.

Lemma round_mag_ext (s : bool) (a : Q) : 0 < a ->
  exists e, to_ext (round_mag s a) = Some e /\
    ext_eqv e (if Qle_bool ovf (rval a) then (if s then ENinf else EPinf)
               else EFin (sgn s (rval a))).
Proof.
  intro Ha. unfold round_mag.
  destruct (Qle_bool ovf (rval a)); [eexists; split; [reflexivity|destruct s; exact I]|].
  unfold rval. pose proof (rmant_nonneg a (Qlt_le_weak _ _ Ha)) as N.
  destruct (rmant a) as [|m|m] eqn:M; [| |lia].
  - eexists. split; [reflexivity|]. cbn. destruct s; cbn; ring.
  - destruct (Pos.eqb_spec m (2 ^ 53)) as [->|_];
      (eexists; split; [reflexivity|]); cbn [ext_eqv value].
    + assert (E2 : inject_Z (Zpos (2 ^ 53)) == 2 * inject_Z (Zpos (2 ^ 52))) by reflexivity.
      destruct s; cbn [sgn]; rewrite pow2_succ, E2; ring.
    + reflexivity.
Qed.

Lemma to_ext_round (zs : bool) (q : Q) :
  exists e, to_ext (round_result zs q) = Some e /\ ext_eqv e (round_ext q).
Proof.
  unfold round_result, round_ext.
  destruct (Qcompare q 0) eqn:C.
  - eexists. split; [reflexivity|]. cbn. reflexivity.
  - apply Qlt_alt in C.
    destruct (round_mag_ext true (- q) ltac:(lra)) as (e & E & V).
    exists e. split; [exact E|]. destruct (Qle_bool ovf (rval (- q))); exact V.
  - apply Qgt_alt in C.
    destruct (round_mag_ext false q C) as (e & E & V).
    exists e. split; [exact E|]. destruct (Qle_bool ovf (rval q)); exact V.
Qed.

Lemma round_ext_mono (q1 q2 : Q) : q1 <= q2 -> ext_leb (round_ext q1) (round_ext q2) = true.
Proof.
  intro H. unfold round_ext.
  destruct (Qcompare q1 0) eqn:C1; destruct (Qcompare q2 0) eqn:C2;
    [apply Qeq_alt in C1|apply Qeq_alt in C1|apply Qeq_alt in C1
    |apply Qlt_alt in C1|apply Qlt_alt in C1|apply Qlt_alt in C1
    |apply Qgt_alt in C1|apply Qgt_alt in C1|apply Qgt_alt in C1];
    [apply Qeq_alt in C2|apply Qlt_alt in C2|apply Qgt_alt in C2
    |apply Qeq_alt in C2|apply Qlt_alt in C2|apply Qgt_alt in C2
    |apply Qeq_alt in C2|apply Qlt_alt in C2|apply Qgt_alt in C2];
    try (exfalso; lra).
  - reflexivity.
  - destruct (Qle_bool ovf (rval q2)); [reflexivity|].
    apply Qle_bool_iff. apply rval_nonneg. lra.
  - destruct (Qle_bool ovf (rval (- q1))); [reflexivity|].
    apply Qle_bool_iff. pose proof (rval_nonneg (- q1) ltac:(lra)). lra.
  - destruct (Qle_bool ovf (rval (- q1))) eqn:B1; [reflexivity|].
    destruct (Qle_bool ovf (rval (- q2))) eqn:B2.
    + apply Qle_bool_iff in B2.
      pose proof (rval_mono (- q2) (- q1) ltac:(lra) ltac:(lra)).
      assert (B : ovf <= rval (- q1)) by lra. apply Qle_bool_iff in B. congruence.
    + apply Qle_bool_iff.
      pose proof (rval_mono (- q2) (- q1) ltac:(lra) ltac:(lra)). lra.
  - destruct (Qle_bool ovf (rval (- q1))); [reflexivity|].
    destruct (Qle_bool ovf (rval q2)); [reflexivity|].
    apply Qle_bool_iff. pose proof (rval_nonneg (- q1) ltac:(lra)).
    pose proof (rval_nonneg q2 ltac:(lra)). lra.
  - destruct (Qle_bool ovf (rval q1)) eqn:B1.
    + assert (B : ovf <= rval q2).
      { apply Qle_bool_iff in B1. pose proof (rval_mono q1 q2 C1 H). lra. }
      apply Qle_bool_iff in B. rewrite B. reflexivity.
    + destruct (Qle_bool ovf (rval q2)); [reflexivity|].
      apply Qle_bool_iff. apply rval_mono; assumption.
Qed.

Lemma fle_round (z1 z2 : bool) (q1 q2 : Q) :
  q1 <= q2 -> fle (round_result z1 q1) (round_result z2 q2) = true.
Proof.
  intro H. unfold fle.
  destruct (to_ext_round z1 q1) as (e1 & E1 & V1).
  destruct (to_ext_round z2 q2) as (e2 & E2 & V2).
  rewrite E1, E2, (ext_leb_eqv _ _ _ _ V1 V2). apply round_ext_mono, H.
Qed.

Lemma fle_ninf_round (z : bool) (q : Q) : fle (Inf true) (round_result z q) = true.
Proof.
  unfold fle. destruct (to_ext_round z q) as (e & E & _). rewrite E. reflexivity.
Qed.

Lemma fle_round_pinf (z : bool) (q : Q) : fle (round_result z q) (Inf false) = true.
Proof.
  unfold fle. destruct (to_ext_round z q) as (e & E & _). rewrite E. destruct e; reflexivity.
Qed.

Lemma zero_round : Zero false = round_result false 0.
Proof. reflexivity. Qed.

Lemma ext_leb_trans (a b c : ext) :
  ext_leb a b = true -> ext_leb b c = true -> ext_leb a c = true.
Proof.
  destruct a, b, c; cbn; try discriminate; try reflexivity.
  rewrite !Qle_bool_iff. apply Qle_trans.
Qed.

Lemma fle_trans (x y z : float) : fle x y = true -> fle y z = true -> fle x z = true.
Proof.
  unfold fle. destruct (to_ext x), (to_ext y), (to_ext z); try discriminate.
  apply ext_leb_trans.
Qed.

Lemma value_pos (c : float) : is_pos_fin c = true -> 0 < value c.
Proof.
  destruct c as [| | |[|] m e]; try discriminate. intros _. cbn.
  apply Qmult_lt_0_compat; [reflexivity|apply pow2_pos].
Qed.

Ltac fcases x := destruct x as [?s|?s| |?s ?m ?e].

Lemma fmul_mono_r (x1 x2 c : float) :
  is_pos_fin c = true -> fle x1 x2 = true -> fle (fmul x1 c) (fmul x2 c) = true.
Proof.
  intros Hc H. pose proof (value_pos c Hc) as Vc.
  destruct c as [| | |[|] mc ec]; try discriminate.
  fcases x1; fcases x2; cbn [fmul]; try (destruct s; cbn in H; discriminate);
    try (destruct s0; cbn in H; discriminate); try discriminate H;
    try (destruct s, s0; cbn in H |- *; try discriminate; reflexivity);
    try (destruct s; cbn in H |- *; try discriminate;
         solve [apply fle_ninf_round | apply fle_round_pinf]);
    try (destruct s0; cbn in H |- *; try discriminate;
         solve [apply fle_ninf_round | apply fle_round_pinf]).
  all: apply fle_round; cbn [fle to_ext ext_leb] in H; apply Qle_bool_iff in H;
       apply Qmult_le_compat_r; [exact H|apply Qlt_le_weak, Vc].
Qed.

Lemma fle_nonneg_fmul (x c : float) :
  is_pos_fin c = true -> fle (Zero false) x = true -> fle (Zero false) (fmul x c) = true.
Proof.
  intros Hc H. apply (fle_trans _ (fmul (Zero false) c)).
  - destruct c as [| | |[|] mc ec]; try discriminate. cbn [fmul sign_bit xorb].
    rewrite zero_round at 1. apply fle_round. cbn [value]. rewrite Qmult_0_l. apply Qle_refl.
  - apply fmul_mono_r; assumption.
Qed.

Lemma fle_nonneg_fmul_pos (x y : float) :
  is_pos_fin x = true -> is_pos_fin y = true -> fle (Zero false) (fmul x y) = true.
Proof.
  intros Hx Hy. pose proof (value_pos x Hx). pose proof (value_pos y Hy).
  destruct x as [| | |[|] mx ex]; try discriminate.
  destruct y as [| | |[|] my ey]; try discriminate.
  cbn [fmul]. rewrite zero_round. apply fle_round.
  apply Qlt_le_weak, Qmult_lt_0_compat; assumption.
Qed.

Lemma fdiv_anti (s y1 y2 : float) :
  fle (Zero false) s = true -> is_pos_fin y1 = true -> is_pos_fin y2 = true ->
  value y2 <= value y1 -> fle (fdiv s y1) (fdiv s y2) = true.
Proof.
  intros Hs H1 H2 H12.
  pose proof (value_pos y1 H1). pose proof (value_pos y2 H2).
  destruct y1 as [| | |[|] m1 e1]; try discriminate.
  destruct y2 as [| | |[|] m2 e2]; try discriminate.
  fcases s; cbn [fdiv]; try discriminate Hs.
  - apply fle_round. apply Qdiv_le_compat; try assumption; cbn; apply Qle_refl.
  - destruct s; [discriminate Hs|reflexivity].
  - cbn in Hs. apply Qle_bool_iff in Hs.
    apply fle_round. apply Qdiv_le_compat; try assumption. apply Qle_refl.
Qed.

Lemma fle_nonneg_fdiv (s y : float) :
  fle (Zero false) s = true -> is_pos_fin y = true -> fle (Zero false) (fdiv s y) = true.
Proof.
  intros Hs Hy. pose proof (value_pos y Hy).
  destruct y as [| | |[|] m e]; try discriminate.
  fcases s; cbn [fdiv]; try discriminate Hs.
  - rewrite zero_round at 1. apply fle_round. cbn. unfold Qdiv. rewrite Qmult_0_l. apply Qle_refl.
  - destruct s; [discriminate Hs|reflexivity].
  - cbn in Hs. apply Qle_bool_iff in Hs.
    rewrite zero_round at 1. apply fle_round.
    apply Qle_shift_div_l; [assumption|]. rewrite Qmult_0_l. exact Hs.
Qed.

Lemma nonneg_cases (x : float) :
  fle (Zero false) x = true -> x = Inf false \/ (is_fin x = true /\ 0 <= value x).
Proof.
  fcases x; intro H; try discriminate H.
  - right. split; [reflexivity|apply Qle_refl].
  - destruct s; [discriminate H|left; reflexivity].
  - right. split; [reflexivity|]. cbn in H. apply Qle_bool_iff in H. exact H.
Qed.

Lemma fadd_fin (x y : float) :
  is_fin x = true -> is_fin y = true ->
  fadd x y = round_result (andb (sign_bit x) (sign_bit y)) (value x + value y).
Proof. fcases x; fcases y; try discriminate; reflexivity. Qed.

Lemma fmul_fin (x y : float) :
  is_fin x = true -> is_fin y = true ->
  fmul x y = round_result (xorb (sign_bit x) (sign_bit y)) (value x * value y).
Proof. fcases x; fcases y; try discriminate; reflexivity. Qed.

Lemma fdiv_fin (x y : float) :
  is_fin x = true -> is_fin y = true -> value y <> 0 \/ (exists s m e, y = Fin s m e) ->
  fdiv x y = round_result (xorb (sign_bit x) (sign_bit y)) (value x / value y).
Proof.
  fcases x; fcases y; try discriminate; intros _ _ H; try reflexivity;
    destruct H as [H|(s1 & m1 & e1 & H)]; try discriminate H; cbn in H; congruence.
Qed.

Lemma fadd_pinf_r (k : float) : is_fin k = true -> fadd k (Inf false) = Inf false.
Proof. fcases k; try discriminate; reflexivity. Qed.

Lemma fadd_pinf_l (x : float) : is_fin x = true -> fadd (Inf false) x = Inf false.
Proof. fcases x; try discriminate; reflexivity. Qed.

Lemma fle_pinf_fin (x : float) : is_fin x = true -> fle (Inf false) x = false.
Proof. fcases x; try discriminate; reflexivity. Qed.

Lemma fadd_mono_r (k x1 x2 : float) :
  fle (Zero false) k = true -> fle (Zero false) x1 = true -> fle x1 x2 = true ->
  fle (fadd k x1) (fadd k x2) = true.
Proof.
  intros Hk H1 H12.
  assert (H2 : fle (Zero false) x2 = true) by (eapply fle_trans; eassumption).
  apply nonneg_cases in Hk, H1, H2.
  destruct Hk as [->|[Fk Vk]].
  - destruct H1 as [->|[F1 _]]; destruct H2 as [->|[F2 _]];
      try (rewrite fle_pinf_fin in H12 by assumption; discriminate);
      rewrite ?fadd_pinf_l by assumption; reflexivity.
  - destruct H1 as [->|[F1 V1]]; destruct H2 as [->|[F2 V2]].
    + rewrite fadd_pinf_r by assumption. reflexivity.
    + rewrite fle_pinf_fin in H12 by assumption. discriminate.
    + rewrite fadd_pinf_r, fadd_fin by assumption. apply fle_round_pinf.
    + rewrite !fadd_fin by assumption. apply fle_round.
      destruct x1, x2; try discriminate; cbn in H12; try apply Qle_bool_iff in H12; cbn [value] in *; lra.
Qed.

Lemma fle_nonneg_fadd (k x : float) :
  fle (Zero false) k = true -> fle (Zero false) x = true -> fle (Zero false) (fadd k x) = true.
Proof.
  intros Hk Hx. apply nonneg_cases in Hk, Hx.
  destruct Hk as [->|[Fk Vk]].
  - destruct Hx as [->|[Fx _]]; [reflexivity|rewrite fadd_pinf_l by assumption; reflexivity].
  - destruct Hx as [->|[Fx Vx]].
    + rewrite fadd_pinf_r by assumption. reflexivity.
    + rewrite fadd_fin by assumption. rewrite zero_round at 1. apply fle_round. lra.
Qed.

(** ** Python numbers: properties *)

Lemma Ok_inj {A : Type} (x y : A) : Ok x = Ok y -> x = y.
Proof. intro H. injection H. auto. Qed.

Lemma round_result_not_nan (z : bool) (q : Q) : round_result z q <> NaN.
Proof.
  unfold round_result, round_mag.
  destruct (Qcompare q 0); try discriminate;
    destruct (Qle_bool _ _); try discriminate;
    destruct (rmant _) as [|m|m]; try discriminate;
    destruct (Pos.eqb m _); discriminate.
Qed.

(** A positive quotient rounds to [+0.0], [+inf] or a positive finite float. *)
Lemma round_result_pos_cases (z : bool) (q : Q) :
  0 < q ->
  round_result z q = Zero false \/ round_result z q = Inf false \/
  is_pos_fin (round_result z q) = true.
Proof.
  intro Hq. unfold round_result.
  replace (Qcompare q 0) with Gt by (symmetry; apply Qgt_alt; exact Hq).
  unfold round_mag. destruct (Qle_bool _ _); [right; left; reflexivity|].
  destruct (rmant q) as [|m|m]; [left; reflexivity| |left; reflexivity].
  right; right. destruct (Pos.eqb m _); reflexivity.
Qed.

Lemma fle_fin_value (x y : float) :
  is_fin x = true -> is_fin y = true -> fle x y = true -> value x <= value y.
Proof.
  fcases x; fcases y; try discriminate; intros _ _ H;
    unfold fle in H; cbn [to_ext ext_leb] in H; apply Qle_bool_iff; exact H.
Qed.

Lemma flt_nonzero (f : float) : flt (Zero false) f = true -> is_zero f = false.
Proof. fcases f; try reflexivity. destruct s; discriminate. Qed.

Lemma is_pos_fin_nonzero (f : float) : is_pos_fin f = true -> is_zero f = false.
Proof. fcases f; try discriminate; reflexivity. Qed.

Lemma pos_fin_fin (f : float) : is_pos_fin f = true -> is_fin f = true.
Proof. fcases f; try discriminate; reflexivity. Qed.

Lemma fmul_pos_not_nan (x c : float) :
  x <> NaN -> is_pos_fin c = true -> fmul x c <> NaN.
Proof.
  intros Hx Hc. destruct c as [| | |[|] mc ec]; try discriminate.
  fcases x; try contradiction; try discriminate; apply round_result_not_nan.
Qed.

Lemma fdiv_pos_not_nan (x c : float) :
  x <> NaN -> is_pos_fin c = true -> fdiv x c <> NaN.
Proof.
  intros Hx Hc. destruct c as [| | |[|] mc ec]; try discriminate.
  fcases x; try contradiction; try discriminate; apply round_result_not_nan.
Qed.

Lemma fmul_self_nonneg (x : float) : x <> NaN -> fle (Zero false) (fmul x x) = true.
Proof.
  intro Hx. fcases x; try contradiction.
  - cbn [fmul]. rewrite zero_round at 1. apply fle_round.
    cbn [value]. rewrite Qmult_0_l. apply Qle_refl.
  - destruct s; reflexivity.
  - cbn [fmul]. rewrite zero_round at 1. apply fle_round.
    nra.
Qed.

(** [x ** 2] on a float is [x * x], except that the square of a finite
    float that overflows raises. *)
Lemma float_square_spec (x : float) :
  float_square x =
    if is_fin x && is_inf (fmul x x)
    then Err (OverflowError "(34, 'Numerical result out of range')")
    else Ok (fmul x x).
Proof.
  fcases x; cbn [float_square is_fin andb].
  - destruct s; reflexivity.
  - destruct s; reflexivity.
  - reflexivity.
  - destruct (fmul _ _); reflexivity.
Qed.

Lemma to_float_PFloat (f : float) : to_float (PFloat f) = Ok f.
Proof. reflexivity. Qed.

Lemma py_mul_spec (x y : pynum) (fx fy : float) :
  to_float x = Ok fx -> to_float y = Ok fy -> is_float x || is_float y = true ->
  py_mul x y = Ok (PFloat (fmul fx fy)).
Proof.
  destruct x, y; cbn [is_float orb]; intros Hx Hy F; try discriminate F;
    cbn [py_mul]; unfold float_binop; rewrite Hx; cbn [bind]; rewrite Hy; reflexivity.
Qed.

Lemma py_add_spec (x y : pynum) (fx fy : float) :
  to_float x = Ok fx -> to_float y = Ok fy -> is_float x || is_float y = true ->
  py_add x y = Ok (PFloat (fadd fx fy)).
Proof.
  destruct x, y; cbn [is_float orb]; intros Hx Hy F; try discriminate F;
    cbn [py_add]; unfold float_binop; rewrite Hx; cbn [bind]; rewrite Hy; reflexivity.
Qed.

Lemma py_truediv_spec (x y : pynum) (fx fy : float) :
  to_float x = Ok fx -> to_float y = Ok fy -> is_float x || is_float y = true ->
  py_truediv x y = if is_zero fy then Err ZeroDivisionError else Ok (PFloat (fdiv fx fy)).
Proof.
  destruct x, y; cbn [is_float orb]; intros Hx Hy F; try discriminate F;
    cbn [py_truediv]; rewrite Hx; cbn [bind]; rewrite Hy; reflexivity.
Qed.

Lemma py_truediv_float (x y r : pynum) : py_truediv x y = Ok r -> is_float r = true.
Proof.
  destruct x as [a|fx], y as [b|fy]; cbn [py_truediv].
  1: { unfold int_truediv. destruct (b =? 0)%Z; [discriminate|].
        destruct (round_result _ _); intro E; try discriminate;
          injection E as <-; reflexivity. }
  all: repeat match goal with
           | |- context [bind (to_float ?x) _] =>
               destruct (to_float x); cbn [bind]; [|discriminate]
           end.
  all: destruct (is_zero _); [discriminate|]; intro E; injection E as <-; reflexivity.
Qed.

(** Dividing a float by a number equal to zero raises. *)
Lemma py_truediv_by_zero (y d : pynum) :
  is_float y = true -> py_is_zero d = true -> py_truediv y d = Err ZeroDivisionError.
Proof.
  destruct y as [a|fy]; [discriminate|]. intros _.
  destruct d as [b|fd]; cbn [py_is_zero].
  - intro Hb. apply Z.eqb_eq in Hb. subst b. reflexivity.
  - intro Hz. cbn [py_truediv to_float bind]. rewrite Hz. reflexivity.
Qed.

Lemma to_float_M_IN_KM : to_float M_IN_KM = Ok (lit 1000 1).
Proof. vm_compute. reflexivity. Qed.

Lemma to_float_MIN_IN_HOUR : to_float MIN_IN_HOUR = Ok (lit 60 1).
Proof. vm_compute. reflexivity. Qed.

Lemma to_float_MULTIPLIER : to_float CALORIES_MEAN_SPEED_MULTIPLIER = Ok (lit 18 1).
Proof. vm_compute. reflexivity. Qed.

Lemma to_float_M_TO_SM : to_float M_TO_SM = Ok (lit 100 1).
Proof. vm_compute. reflexivity. Qed.

Lemma to_float_SWIM_CONST2 : to_float SWIM_CONST2 = Ok (lit 2 1).
Proof. vm_compute. reflexivity. Qed.

Lemma consts_pos :
  is_pos_fin (lit 65 100) = true /\ is_pos_fin (lit 138 100) = true /\
  is_pos_fin (lit 1000 1) = true /\ is_pos_fin (lit 60 1) = true /\
  is_pos_fin (lit 18 1) = true /\ is_pos_fin (lit 179 100) = true /\
  is_pos_fin (lit 278 1000) = true /\ is_pos_fin (lit 35 1000) = true /\
  is_pos_fin (lit 29 1000) = true /\ is_pos_fin (lit 100 1) = true /\
  is_pos_fin (lit 11 10) = true /\ is_pos_fin (lit 2 1) = true.
Proof. vm_compute. repeat split. Qed.


(** ** Distance and mean speed *)

Lemma get_distance_spec (t : Training) (fa c : float) :
  to_float (action t) = Ok fa -> LEN_STEP t = PFloat c ->
  get_distance t = Ok (PFloat (fdiv (fmul fa c) (lit 1000 1))).
Proof.
  intros Ha Hc. unfold get_distance. rewrite Hc.
  rewrite (py_mul_spec _ (PFloat c) fa c Ha (to_float_PFloat c)) by (rewrite orb_true_r; reflexivity).
  cbn [bind].
  rewrite (py_truediv_spec (PFloat (fmul fa c)) M_IN_KM _ (lit 1000 1)
             (to_float_PFloat _) to_float_M_IN_KM eq_refl).
  rewrite is_pos_fin_nonzero by apply consts_pos. reflexivity.
Qed.

Lemma get_mean_speed_spec (t : Training) (dist fd : float) :
  class_name t <> "Swimming" ->
  get_distance t = Ok (PFloat dist) -> to_float (duration t) = Ok fd ->
  is_zero fd = false ->
  get_mean_speed t = Ok (PFloat (fdiv dist fd)).
Proof.
  intros Hs Hdist Hd Hz.
  assert (E : get_mean_speed t = (x <- get_distance t ;; py_truediv x (duration t)))
    by (destruct t; [reflexivity|reflexivity|reflexivity|contradiction Hs; reflexivity]).
  rewrite E, Hdist. cbn [bind].
  rewrite (py_truediv_spec (PFloat dist) _ dist fd (to_float_PFloat _) Hd eq_refl), Hz. reflexivity.
Qed.

Lemma get_mean_speed_walking (a d w h : pynum) :
  get_mean_speed (SportsWalking a d w h) = get_mean_speed (Running a d w).
Proof. reflexivity. Qed.

(** ** SportsWalking: the calorie computation *)

Lemma walking_mean_speed (a d w h : pynum) (fa fd : float) :
  to_float a = Ok fa -> to_float d = Ok fd -> is_zero fd = false ->
  get_mean_speed (SportsWalking a d w h) =
    Ok (PFloat (fdiv (fdiv (fmul fa (lit 65 100)) (lit 1000 1)) fd)).
Proof.
  intros Ha Hd Hz. rewrite get_mean_speed_walking.
  apply get_mean_speed_spec; [discriminate| |exact Hd|exact Hz].
  apply get_distance_spec; [exact Ha|reflexivity].
Qed.

(** [SportsWalking.get_spent_calories] step by step, once the mean speed
    [ms] and [height / M_TO_SM] are computed; [v] is [ms * COEF_KMH_MS]. *)
Lemma walking_spec (a d w h : pynum) (ms v fd fw fh : float) :
  get_mean_speed (SportsWalking a d w h) = Ok (PFloat ms) ->
  v = fmul ms (lit 278 1000) ->
  to_float d = Ok fd -> to_float w = Ok fw ->
  py_truediv h M_TO_SM = Ok (PFloat fh) ->
  get_spent_calories (SportsWalking a d w h) =
    if is_fin v && is_inf (fmul v v)
    then Err (OverflowError "(34, 'Numerical result out of range')")
    else if is_zero fh then Err ZeroDivisionError
    else Ok (PFloat (fmul (fmul (fadd (fmul (lit 35 1000) fw)
                                      (fmul (fmul (fdiv (fmul v v) fh) (lit 29 1000)) fw))
                                fd) (lit 60 1))).
Proof.
  intros M Ev Hd Hw Hh.
  cbn [get_spent_calories]. rewrite M. cbn [bind].
  rewrite (py_mul_spec _ COEF_KMH_MS _ _ (to_float_PFloat _) (to_float_PFloat _) eq_refl).
  rewrite <- Ev. cbn [bind]. rewrite Hh. cbn [bind].
  rewrite (py_mul_spec WEIGHT_COEF1 _ _ _ (to_float_PFloat _) Hw eq_refl). cbn [bind].
  cbn [py_pow2]. rewrite float_square_spec.
  destruct (is_fin v && is_inf (fmul v v)); cbn [bind]; [reflexivity|].
  rewrite (py_truediv_spec _ _ _ _ (to_float_PFloat _) (to_float_PFloat fh) eq_refl).
  destruct (is_zero fh); [reflexivity|]. cbn [bind].
  rewrite (py_mul_spec _ WEIGHT_COEF2 _ _ (to_float_PFloat _) (to_float_PFloat _) eq_refl).
  cbn [bind].
  rewrite (py_mul_spec _ _ _ _ (to_float_PFloat _) Hw eq_refl). cbn [bind].
  rewrite (py_add_spec _ _ _ _ (to_float_PFloat _) (to_float_PFloat _) eq_refl). cbn [bind].
  rewrite (py_mul_spec _ _ _ _ (to_float_PFloat _) Hd eq_refl). cbn [bind].
  rewrite (py_mul_spec _ _ _ _ (to_float_PFloat _) to_float_MIN_IN_HOUR eq_refl).
  reflexivity.
Qed.

(** An error of [height / M_TO_SM] is the error of the calories. *)
Lemma walking_height_err (a d w h : pynum) (ms : float) (e : exc) :
  get_mean_speed (SportsWalking a d w h) = Ok (PFloat ms) ->
  py_truediv h M_TO_SM = Err e ->
  get_spent_calories (SportsWalking a d w h) = Err e.
Proof.
  intros M Hh.
  cbn [get_spent_calories]. rewrite M. cbn [bind].
  rewrite (py_mul_spec _ COEF_KMH_MS _ _ (to_float_PFloat _) (to_float_PFloat _) eq_refl).
  cbn [bind]. rewrite Hh. reflexivity.
Qed.

(** [height / M_TO_SM] for a positive [int] height: the correctly rounded
    quotient, never [inf]. *)
Lemma height_div (h : Z) (g : float) :
  (0 < h)%Z -> py_truediv (PInt h) M_TO_SM = Ok (PFloat g) ->
  g = round_result false (inject_Z h / inject_Z 100) /\ g <> Inf false.
Proof.
  intro Hp. cbn [py_truediv M_TO_SM]. unfold int_truediv. cbn [Z.eqb].
  replace (h <? 0)%Z with false by (symmetry; apply Z.ltb_ge; lia).
  change (xorb false (100 <? 0)%Z) with false.
  destruct (round_result false _) eqn:R; intro E; cbn iota in E; try discriminate;
    injection E as <-; (split; [reflexivity|discriminate]).
Qed.

Lemma height_div_mono (h1 h2 : Z) :
  (h2 <= h1)%Z -> inject_Z h2 / inject_Z 100 <= inject_Z h1 / inject_Z 100.
Proof.
  intro H. unfold Qdiv. apply Qmult_le_compat_r.
  - rewrite <- Zle_Qle. exact H.
  - unfold Qle. cbn. lia.
Qed.

Lemma height_div_pos (h : Z) : (0 < h)%Z -> 0 < inject_Z h / inject_Z 100.
Proof.
  intro H. unfold Qdiv. apply Qmult_lt_0_compat.
  - change 0 with (inject_Z 0). rewrite <- Zlt_Qlt. exact H.
  - unfold Qlt. cbn. lia.
Qed.

(** * The claims *)

(** ** Running *)

(** C1 (as stated, refuted): [get_distance] computes [action * 0.65 / 1000]
    in floats, which is not [action * 0.00065]: at action 3 the two differ
    in the last bit ([0.0019500000000000001] against [0.00195]); and an
    action too large for a float raises [OverflowError]. *)
Lemma running_distance_counterexample :
  get_distance (Running (PInt 3) (PInt 1) (PInt 75)) =
    Ok (PFloat (Fin false 8992787735933407 (-62))) /\
  py_mul (PInt 3) (PFloat (lit 65 100000)) =
    Ok (PFloat (Fin false 8992787735933406 (-62))) /\
  feq (Fin false 8992787735933407 (-62)) (Fin false 8992787735933406 (-62)) = false /\
  get_distance (Running (PInt (10 ^ 400)) (PInt 1) (PInt 75)) =
    Err (OverflowError "int too large to convert to float").
Proof.
  split; [vm_compute; reflexivity|].
  split; [vm_compute; reflexivity|].
  split; vm_compute; reflexivity.
Qed.

(** C1 (amended): for a [Running] record whose action, duration and weight
    convert to the floats [fa], [fd] and [fw] (ints in the float range),
    with [fd > 0], the distance is the float expression
    [fa * 0.65 / 1000], the mean speed is [distance / fd] and the calories
    are [(18 * ms + 1.79) * fw / 1000 * fd * 60], each operation a correctly
    rounded binary64 operation, evaluated left to right. *)
Theorem running_formulas (a d w : pynum) (fa fd fw : float) :
  to_float a = Ok fa -> to_float d = Ok fd -> to_float w = Ok fw ->
  flt (Zero false) fd = true ->
  get_distance (Running a d w) =
    Ok (PFloat (fdiv (fmul fa (lit 65 100)) (lit 1000 1))) /\
  get_mean_speed (Running a d w) =
    Ok (PFloat (fdiv (fdiv (fmul fa (lit 65 100)) (lit 1000 1)) fd)) /\
  get_spent_calories (Running a d w) =
    Ok (PFloat
      (fmul (fmul (fdiv (fmul (fadd (fmul (lit 18 1)
                                          (fdiv (fdiv (fmul fa (lit 65 100)) (lit 1000 1)) fd))
                                    (lit 179 100))
                              fw)
                        (lit 1000 1))
                  fd)
            (lit 60 1))).
Proof.
  intros Ha Hd Hw Hpos.
  assert (D : get_distance (Running a d w) =
                Ok (PFloat (fdiv (fmul fa (lit 65 100)) (lit 1000 1))))
    by (apply get_distance_spec; [exact Ha|reflexivity]).
  assert (M : get_mean_speed (Running a d w) =
                Ok (PFloat (fdiv (fdiv (fmul fa (lit 65 100)) (lit 1000 1)) fd))).
  { apply get_mean_speed_spec; [discriminate|exact D|exact Hd|].
    apply flt_nonzero. exact Hpos. }
  split; [exact D|]. split; [exact M|].
  cbn [get_spent_calories]. rewrite M. cbn [bind].
  rewrite (py_mul_spec _ _ _ _ to_float_MULTIPLIER (to_float_PFloat _) eq_refl).
  cbn [bind].
  rewrite (py_add_spec _ CALORIES_MEAN_SPEED_SHIFT _ _ (to_float_PFloat _)
             (to_float_PFloat _) eq_refl).
  cbn [bind].
  rewrite (py_mul_spec _ _ _ _ (to_float_PFloat _) Hw eq_refl). cbn [bind].
  rewrite (py_truediv_spec _ _ _ _ (to_float_PFloat _) to_float_M_IN_KM eq_refl).
  rewrite is_pos_fin_nonzero by apply consts_pos. cbn [bind].
  rewrite (py_mul_spec _ _ _ _ (to_float_PFloat _) Hd eq_refl). cbn [bind].
  rewrite (py_mul_spec _ _ _ _ (to_float_PFloat _) to_float_MIN_IN_HOUR eq_refl).
  reflexivity.
Qed.

Lemma running_formulas_witness :
  to_float (PInt 1) = Ok (lit 1 1) /\ flt (Zero false) (lit 1 1) = true /\
  get_distance (Running (PInt 15000) (PInt 1) (PInt 75)) =
    Ok (PFloat (fdiv (fmul (lit 15000 1) (lit 65 100)) (lit 1000 1))).
Proof.
  split; [vm_compute; reflexivity|]. split; [vm_compute; reflexivity|].
  apply (running_formulas (PInt 15000) (PInt 1) (PInt 75) (lit 15000 1) (lit 1 1) (lit 75 1));
    vm_compute; reflexivity.
Defined.

(** ** Swimming *)

(** C2 (as stated, refuted): the distance [action * 1.38 / 1000] is not
    [action * 0.00138] in floats (action 21: [0.028979999999999995]
    against [0.02898]), and pools whose product divided by 1000 exceeds
    the float range make the mean speed raise [OverflowError]. *)
Lemma swimming_counterexample :
  get_distance (Swimming (PInt 21) (PInt 1) (PInt 75) (PInt 25) (PInt 40)) =
    Ok (PFloat (Fin false 8352916300876605 (-58))) /\
  py_mul (PInt 21) (PFloat (lit 138 100000)) =
    Ok (PFloat (Fin false 8352916300876606 (-58))) /\
  feq (Fin false 8352916300876605 (-58)) (Fin false 8352916300876606 (-58)) = false /\
  get_mean_speed (Swimming (PInt 720) (PInt 1) (PInt 80) (PInt (10 ^ 200)) (PInt (10 ^ 200))) =
    Err (OverflowError "integer division result too large for a float").
Proof.
  split; [vm_compute; reflexivity|].
  split; [vm_compute; reflexivity|].
  split; vm_compute; reflexivity.
Qed.

(** C2 (amended): for a [Swimming] record whose action and duration
    convert to the floats [fa] and [fd] with [fd > 0], the distance is the
    float expression [fa * 1.38 / 1000]; the mean speed does not depend on
    the action; and when [length_pool * count_pool / 1000] evaluates to the
    float [q] (for int pools: the exact product, then the correctly rounded
    quotient), the mean speed is [q / fd]. *)
Theorem swimming_formulas (a a' d w lp cp : pynum) (fa fd q : float) :
  to_float a = Ok fa -> to_float d = Ok fd -> flt (Zero false) fd = true ->
  get_distance (Swimming a d w lp cp) =
    Ok (PFloat (fdiv (fmul fa (lit 138 100)) (lit 1000 1))) /\
  get_mean_speed (Swimming a d w lp cp) = get_mean_speed (Swimming a' d w lp cp) /\
  ((x <- py_mul lp cp ;; py_truediv x M_IN_KM) = Ok (PFloat q) ->
   get_mean_speed (Swimming a d w lp cp) = Ok (PFloat (fdiv q fd))).
Proof.
  intros Ha Hd Hpos.
  split; [apply get_distance_spec; [exact Ha|reflexivity]|].
  split; [reflexivity|].
  intro Hq. cbn [get_mean_speed].
  destruct (py_mul lp cp) as [x|e]; cbn [bind] in Hq |- *; [|discriminate].
  rewrite Hq. cbn [bind].
  rewrite (py_truediv_spec _ _ _ _ (to_float_PFloat q) Hd eq_refl).
  rewrite (flt_nonzero fd Hpos). reflexivity.
Qed.

Lemma swimming_formulas_witness :
  to_float (PInt 720) = Ok (lit 720 1) /\
  get_mean_speed (Swimming (PInt 720) (PInt 1) (PInt 80) (PInt 25) (PInt 40)) =
    Ok (PFloat (fdiv (lit 1 1) (lit 1 1))).
Proof.
  split; [vm_compute; reflexivity|].
  apply (swimming_formulas (PInt 720) (PInt 0) (PInt 1) (PInt 80) (PInt 25) (PInt 40)
           (lit 720 1) (lit 1 1) (lit 1 1)); vm_compute; reflexivity.
Defined.

(** C10: the stroke-based distance of a [Swimming] record differs from the
    pool-based one ([get_mean_speed() * duration]): at action 720,
    duration 1, weight 80, a 25 m pool and 40 laps they are
    [0.9935999999999999] (0.9936 to four decimals) and [1.0]. *)
Theorem swimming_distances_disagree :
  exists dist ms p,
    get_distance (Swimming (PInt 720) (PInt 1) (PInt 80) (PInt 25) (PInt 40)) =
      Ok (PFloat dist) /\
    feq dist (lit 9935999999999999 (10 ^ 16)) = true /\
    fmt_float 4 dist = "0.9936" /\
    get_mean_speed (Swimming (PInt 720) (PInt 1) (PInt 80) (PInt 25) (PInt 40)) =
      Ok (PFloat ms) /\
    py_mul (PFloat ms) (duration (Swimming (PInt 720) (PInt 1) (PInt 80) (PInt 25) (PInt 40))) =
      Ok (PFloat p) /\
    feq p (lit 1 1) = true /\
    feq dist p = false.
Proof.
  exists (Fin false 8949553179510649 (-53)), (Fin false 4503599627370496 (-52)),
         (Fin false 4503599627370496 (-52)).
  repeat split; vm_compute; reflexivity.
Qed.

(** ** SportsWalking *)




(** C7 (as stated, refuted): the calories need not strictly increase as the
    height decreases.  With no steps the speed term is zero and heights 180
    and 170 give the same calories; with action 1, duration 1000 and weight
    75 the height term is lost in rounding and heights 181 and 180 give the
    same float. *)
Lemma walking_height_same_calories :
  get_spent_calories (SportsWalking (PInt 0) (PInt 1) (PInt 75) (PInt 180)) =
    Ok (PFloat (Fin false 5541538603991041 (-45))) /\
  get_spent_calories (SportsWalking (PInt 0) (PInt 1) (PInt 75) (PInt 170)) =
    Ok (PFloat (Fin false 5541538603991041 (-45))) /\
  get_spent_calories (SportsWalking (PInt 1) (PInt 1000) (PInt 75) (PInt 181)) =
    Ok (PFloat (Fin false 5411658792960082 (-35))) /\
  get_spent_calories (SportsWalking (PInt 1) (PInt 1000) (PInt 75) (PInt 180)) =
    Ok (PFloat (Fin false 5411658792960082 (-35))).
Proof.
  split; [vm_compute; reflexivity|]. split; [vm_compute; reflexivity|].
  split; vm_compute; reflexivity.
Qed.

(** C7 (amended): take two [SportsWalking] records that agree on action,
    duration and weight, where the action converts to a finite float, the
    duration and weight convert to positive finite floats, and the
    ([int]) heights satisfy [h1 > h2 > 0].  When both calorie
    computations return, the record with the smaller height [h2] has
    calories at least those of the record with [h1] (Python's [<=] on the
    two floats); equality happens, so the order is not strict. *)
Theorem walking_calories_height_antitone (a d w : pynum) (h1 h2 : Z)
    (fa fd fw : float) (c1 c2 : pynum) :
  to_float a = Ok fa -> is_fin fa = true ->
  to_float d = Ok fd -> is_pos_fin fd = true ->
  to_float w = Ok fw -> is_pos_fin fw = true ->
  (0 < h2 < h1)%Z ->
  get_spent_calories (SportsWalking a d w (PInt h1)) = Ok c1 ->
  get_spent_calories (SportsWalking a d w (PInt h2)) = Ok c2 ->
  exists f1 f2, c1 = PFloat f1 /\ c2 = PFloat f2 /\ fle f1 f2 = true.
Proof.
  intros Ha Fa Hd Pd Hw Pw Hh C1 C2.
  pose proof (is_pos_fin_nonzero fd Pd) as Zd.
  destruct consts_pos as (P65 & _ & P1000 & P60 & _ & _ & P278 & P35 & P29 & _).
  (* the mean speed and [v] do not depend on the height *)
  assert (Ms : exists ms, ms <> NaN /\
                 forall h, get_mean_speed (SportsWalking a d w h) = Ok (PFloat ms)).
  { exists (fdiv (fdiv (fmul fa (lit 65 100)) (lit 1000 1)) fd). split.
    - apply fdiv_pos_not_nan; [|exact Pd].
      apply fdiv_pos_not_nan; [|exact P1000].
      apply fmul_pos_not_nan; [|exact P65].
      intro E. rewrite E in Fa. discriminate Fa.
    - intro h. apply walking_mean_speed; assumption. }
  destruct Ms as (ms & Nms & M).
  assert (Ev : exists v, v = fmul ms (lit 278 1000)) by (eexists; reflexivity).
  destruct Ev as [v Ev].
  assert (Nv : v <> NaN) by (rewrite Ev; apply fmul_pos_not_nan; assumption).
  (* [height / 100] for both records *)
  destruct (py_truediv (PInt h1) M_TO_SM) as [r1|e1] eqn:E1;
    [|rewrite (walking_height_err a d w _ ms e1 (M _) E1) in C1; discriminate C1].
  destruct (py_truediv (PInt h2) M_TO_SM) as [r2|e2] eqn:E2;
    [|rewrite (walking_height_err a d w _ ms e2 (M _) E2) in C2; discriminate C2].
  pose proof (py_truediv_float _ _ _ E1) as F1.
  pose proof (py_truediv_float _ _ _ E2) as F2.
  destruct r1 as [|g1]; [discriminate F1|]. destruct r2 as [|g2]; [discriminate F2|].
  destruct (height_div h1 g1 ltac:(lia) E1) as [G1 N1].
  destruct (height_div h2 g2 ltac:(lia) E2) as [G2 N2].
  rewrite (walking_spec a d w _ ms v fd fw g1 (M _) Ev Hd Hw E1) in C1.
  rewrite (walking_spec a d w _ ms v fd fw g2 (M _) Ev Hd Hw E2) in C2.
  destruct (is_fin v && is_inf (fmul v v)); [discriminate C1|].
  destruct (is_zero g1) eqn:Z1; [discriminate C1|].
  destruct (is_zero g2) eqn:Z2; [discriminate C2|].
  apply Ok_inj in C1. apply Ok_inj in C2. subst c1 c2.
  eexists; eexists; split; [reflexivity|]; split; [reflexivity|].
  (* both quotients are positive finite floats, [g2 <= g1] *)
  assert (Pg1 : is_pos_fin g1 = true).
  { destruct (round_result_pos_cases false _ (height_div_pos h1 ltac:(lia)))
      as [R|[R|R]]; rewrite <- G1 in R; [rewrite R in Z1; discriminate Z1|contradiction|exact R]. }
  assert (Pg2 : is_pos_fin g2 = true).
  { destruct (round_result_pos_cases false _ (height_div_pos h2 ltac:(lia)))
      as [R|[R|R]]; rewrite <- G2 in R; [rewrite R in Z2; discriminate Z2|contradiction|exact R]. }
  assert (Le : value g2 <= value g1).
  { apply fle_fin_value.
    - apply pos_fin_fin. exact Pg2.
    - apply pos_fin_fin. exact Pg1.
    - rewrite G1, G2. apply fle_round. apply height_div_mono. lia. }
  (* the square of the speed is nonnegative *)
  pose proof (fmul_self_nonneg v Nv) as S.
  (* monotonicity of each operation *)
  apply fmul_mono_r; [exact P60|].
  apply fmul_mono_r; [exact Pd|].
  apply fadd_mono_r.
  - apply fle_nonneg_fmul_pos; [exact P35|exact Pw].
  - apply fle_nonneg_fmul; [exact Pw|].
    apply fle_nonneg_fmul; [exact P29|].
    apply fle_nonneg_fdiv; [exact S|exact Pg1].
  - apply fmul_mono_r; [exact Pw|].
    apply fmul_mono_r; [exact P29|].
    apply fdiv_anti; assumption.
Qed.

Lemma walking_calories_height_antitone_witness :
  exists f1 f2,
    PFloat (Fin false 6144101718797207 (-44)) = PFloat f1 /\
    PFloat (Fin false 6342533037432600 (-44)) = PFloat f2 /\ fle f1 f2 = true.
Proof.
  apply (walking_calories_height_antitone (PInt 9000) (PInt 1) (PInt 75) 180 170
           (lit 9000 1) (lit 1 1) (lit 75 1)); vm_compute; try reflexivity; split; reflexivity.
Defined.

(** ** Dispatch *)

(** C4: [read_package] with a code other than "SWM", "RUN" and "WLK"
    raises the unknown-workout-type [ValueError], whatever the data. *)
Theorem read_package_unknown_code (code : string) (data : list pynum) :
  code <> "SWM" -> code <> "RUN" -> code <> "WLK" ->
  read_package code data = Err (ValueError ("Неизвестный тип тренировки: " ++ code)).
Proof.
  intros H1 H2 H3. unfold read_package, workout_dict. cbn [dict_get].
  destruct (String.eqb_spec code "SWM"); [contradiction|].
  destruct (String.eqb_spec code "RUN"); [contradiction|].
  destruct (String.eqb_spec code "WLK"); [contradiction|].
  reflexivity.
Qed.

Lemma read_package_unknown_code_witness :
  "XYZ" <> "SWM" /\ "XYZ" <> "RUN" /\ "XYZ" <> "WLK" /\
  read_package "XYZ" [PInt 1; PInt 2; PInt 3] =
    Err (ValueError ("Неизвестный тип тренировки: " ++ "XYZ")).
Proof.
  split; [discriminate|]. split; [discriminate|]. split; [discriminate|].
  apply read_package_unknown_code; discriminate.
Defined.

(** ** The base class *)

(** C8: [get_spent_calories] of the base [Training] class raises
    [NotImplementedError] for every action, duration and weight; it never
    returns a number. *)
Theorem base_calories_not_implemented (a d w : pynum) :
  get_spent_calories (Base a d w) =
    Err (NotImplementedError
           ["Метод get_spent_calories не был переопределен в классе "; "Training"]) /\
  forall c, get_spent_calories (Base a d w) <> Ok c.
Proof.
  split; [reflexivity|]. intros c E. discriminate E.
Qed.

(** ** Formatting *)

Lemma parse_MESSAGE :
  parse_fmt (InLit "") MESSAGE =
  Some [Lit "Тип тренировки: "; Field "training_type" "";
        Lit "; Длительность: "; Field "duration" ".3f";
        Lit " ч.; Дистанция: "; Field "distance" ".3f";
        Lit " км; Ср. скорость: "; Field "speed" ".3f";
        Lit " км/ч; Потрачено ккал: "; Field "calories" ".3f";
        Lit "."].
Proof. vm_compute. reflexivity. Qed.

(** [get_message] as the template with each number converted to float and
    rendered by [fmt_float 3]. *)
Lemma get_message_spec (m : InfoMessage) (fdur fdist fsp fcal : float) :
  to_float (info_duration m) = Ok fdur -> to_float (distance m) = Ok fdist ->
  to_float (speed m) = Ok fsp -> to_float (calories m) = Ok fcal ->
  get_message m =
    Ok ("Тип тренировки: " ++ training_type m ++
        "; Длительность: " ++ fmt_float 3 fdur ++
        " ч.; Дистанция: " ++ fmt_float 3 fdist ++
        " км; Ср. скорость: " ++ fmt_float 3 fsp ++
        " км/ч; Потрачено ккал: " ++ fmt_float 3 fcal ++ ".").
Proof.
  intros H1 H2 H3 H4. unfold get_message, str_format. rewrite parse_MESSAGE.
  cbn [render lookup asdict String.eqb Ascii.eqb Bool.eqb andb].
  unfold format_value. cbn [is_digit nat_of_ascii N.to_nat].
  cbn [Nat.leb andb].
  rewrite H1, H2, H3, H4. reflexivity.
Qed.

Lemma digit_char_digit (n : Z) : (0 <= n < 10)%Z -> is_digit (digit_char n) = true.
Proof.
  intro Hn. unfold is_digit, digit_char.
  rewrite Ascii.nat_ascii_embedding by lia.
  apply andb_true_intro. split; apply Nat.leb_le; lia.
Qed.

Lemma z_digits_digits (fuel : nat) (n : Z) (acc : string) :
  (0 <= n)%Z -> (Z.to_nat n <= fuel)%nat -> all_digits acc = true ->
  all_digits (z_digits fuel n acc) = true /\ z_digits fuel n acc <> "".
Proof.
  revert n acc. induction fuel as [|fuel IH]; intros n acc Hn Hf Hacc; cbn [z_digits].
  - assert (n = 0%Z) by lia. subst n.
    split; [|discriminate]. cbn [all_digits].
    rewrite digit_char_digit by lia. exact Hacc.
  - destruct (Z.ltb_spec n 10).
    + split; [|discriminate]. cbn [all_digits].
      rewrite digit_char_digit by lia. exact Hacc.
    + apply IH.
      * apply Z.div_pos; lia.
      * assert (n / 10 < n)%Z by (apply Z.div_lt; lia).
        lia.
      * cbn [all_digits]. rewrite digit_char_digit by (apply Z.mod_pos_bound; lia).
        exact Hacc.
Qed.

Lemma frac_digits_digits (p : nat) (n : Z) (acc : string) :
  all_digits acc = true ->
  all_digits (frac_digits p n acc) = true /\
  String.length (frac_digits p n acc) = (p + String.length acc)%nat.
Proof.
  revert n acc. induction p as [|p IH]; intros n acc Hacc; [split; auto|].
  cbn [frac_digits].
  destruct (IH (n / 10)%Z (String (digit_char (n mod 10)) acc)) as [D L].
  - cbn [all_digits]. rewrite digit_char_digit by (apply Z.mod_pos_bound; lia).
    exact Hacc.
  - split; [exact D|]. rewrite L. cbn. lia.
Qed.

Lemma round_half_even_nonneg (q : Q) : (0 <= Qnum q)%Z -> (0 <= round_half_even q)%Z.
Proof.
  intro Hq. unfold round_half_even.
  assert (0 <= Qnum q / Z.pos (Qden q))%Z by (apply Z.div_pos; lia).
  destruct (Z.compare _ _); [destruct (Z.even _)| |]; lia.
Qed.

Lemma Qnum_nonneg (q : Q) : 0 <= q -> (0 <= Qnum q)%Z.
Proof. unfold Qle. cbn. lia. Qed.

(** [format(q, '.3f')] of a magnitude [q >= 0]: a nonempty run of digits,
    a point and exactly three digits. *)
Lemma fmt_fixed_3_shape (q : Q) :
  0 <= q ->
  exists ip fr,
    fmt_fixed 3 q = ip ++ "." ++ fr /\
    ip <> "" /\ all_digits ip = true /\
    all_digits fr = true /\ String.length fr = 3%nat.
Proof.
  intro Hq.
  assert (Hn : (0 <= round_half_even (q * inject_Z (10 ^ Z.of_nat 3)))%Z).
  { apply round_half_even_nonneg, Qnum_nonneg.
    apply Qmult_le_0_compat; [exact Hq|]. unfold Qle. cbn. lia. }
  revert Hn. unfold fmt_fixed.
  generalize (round_half_even (q * inject_Z (10 ^ Z.of_nat 3))). intros n Hn.
  exists (z_to_decimal (n / 10 ^ Z.of_nat 3)%Z),
         (frac_digits 3 (n mod 10 ^ Z.of_nat 3)%Z "").
  destruct (z_digits_digits (Z.to_nat (n / 10 ^ Z.of_nat 3)) (n / 10 ^ Z.of_nat 3) ""
              ltac:(apply Z.div_pos; lia) (Nat.le_refl _) eq_refl) as [ID INE].
  destruct (frac_digits_digits 3 (n mod 10 ^ Z.of_nat 3)%Z "" eq_refl) as [FD FL].
  split; [reflexivity|].
  split; [exact INE|]. split; [exact ID|]. split; [exact FD|exact FL].
Qed.

(** [format(f, '.3f')] of a finite float: a '-' exactly when the sign bit
    is set, a nonempty run of digits, a point and exactly three digits. *)
Lemma fmt_float_3_shape (f : float) :
  is_fin f = true ->
  exists ip fr,
    fmt_float 3 f = sign_str (sign_bit f) ++ ip ++ "." ++ fr /\
    ip <> "" /\ all_digits ip = true /\
    all_digits fr = true /\ String.length fr = 3%nat.
Proof.
  intro F.
  assert (Hq : exists q, 0 <= q /\ fmt_float 3 f = sign_str (sign_bit f) ++ fmt_fixed 3 q).
  { destruct f as [s|s| |s m e]; try discriminate F.
    - exists 0. split; [apply Qle_refl|reflexivity].
    - exists (inject_Z (Zpos m) * pow2 e). split; [|reflexivity].
      apply Qmult_le_0_compat; [unfold Qle; cbn; lia|apply Qlt_le_weak, pow2_pos]. }
  destruct Hq as (q & Hq & E).
  destruct (fmt_fixed_3_shape q Hq) as (ip & fr & Ef & R).
  exists ip, fr. rewrite E, Ef. split; [reflexivity|exact R].
Qed.

Lemma show_training_info_type (t : Training) (m : InfoMessage) :
  show_training_info t = Ok m -> training_type m = class_name t.
Proof.
  unfold show_training_info.
  destruct (get_distance t); cbn [bind]; [|intro E; discriminate E].
  destruct (get_mean_speed t); cbn [bind]; [|intro E; discriminate E].
  destruct (get_spent_calories t); cbn [bind]; [|intro E; discriminate E].
  intro E. apply Ok_inj in E. subst m. reflexivity.
Qed.

(** C5 (as stated, refuted): a summary is not always rendered with three
    decimals; a [RUN] package with weight [1e308] gets infinite calories,
    printed "inf". *)
Lemma get_message_inf_counterexample :
  process "RUN" [PInt 15000; PInt 1; PFloat (lit (10 ^ 308) 1)] =
    Ok ("Тип тренировки: Running; Длительность: 1.000 ч.; Дистанция: 9.750 км; " ++
        "Ср. скорость: 9.750 км/ч; Потрачено ккал: inf.").
Proof. vm_compute. reflexivity. Qed.

(** C5 (amended): [get_message] yields exactly the template text with the
    type name and the four numbers, each converted to float and rendered
    by [format(x, '.3f')]; a finite float is rendered as an optional '-',
    digits, a point and exactly three digits, while the infinities and NaN
    are rendered "inf", "-inf" and "nan"; the [training_type] of a summary
    is the class name of its record. *)
Theorem get_message_text :
  (forall (m : InfoMessage) (fdur fdist fsp fcal : float),
     to_float (info_duration m) = Ok fdur -> to_float (distance m) = Ok fdist ->
     to_float (speed m) = Ok fsp -> to_float (calories m) = Ok fcal ->
     get_message m =
       Ok ("Тип тренировки: " ++ training_type m ++
           "; Длительность: " ++ fmt_float 3 fdur ++
           " ч.; Дистанция: " ++ fmt_float 3 fdist ++
           " км; Ср. скорость: " ++ fmt_float 3 fsp ++
           " км/ч; Потрачено ккал: " ++ fmt_float 3 fcal ++ ".")) /\
  (forall f : float,
     is_fin f = true ->
     exists ip fr,
       fmt_float 3 f = sign_str (sign_bit f) ++ ip ++ "." ++ fr /\
       ip <> "" /\ all_digits ip = true /\
       all_digits fr = true /\ String.length fr = 3%nat) /\
  (fmt_float 3 (Inf false) = "inf" /\ fmt_float 3 (Inf true) = "-inf" /\
   fmt_float 3 NaN = "nan") /\
  (forall (t : Training) (m : InfoMessage),
     show_training_info t = Ok m -> training_type m = class_name t).
Proof.
  split; [exact get_message_spec|].
  split; [exact fmt_float_3_shape|].
  split; [split; [reflexivity|split; reflexivity]|].
  exact show_training_info_type.
Qed.

Lemma get_message_text_witness :
  get_message (mkInfoMessage "Running" (PInt 1) (PFloat (lit 975 100))
                 (PFloat (lit 975 100)) (PFloat (lit 797805 1000))) =
    Ok ("Тип тренировки: " ++ "Running" ++
        "; Длительность: " ++ fmt_float 3 (lit 1 1) ++
        " ч.; Дистанция: " ++ fmt_float 3 (lit 975 100) ++
        " км; Ср. скорость: " ++ fmt_float 3 (lit 975 100) ++
        " км/ч; Потрачено ккал: " ++ fmt_float 3 (lit 797805 1000) ++ ".").
Proof.
  apply (proj1 get_message_text); vm_compute; reflexivity.
Defined.

(** ** The driver's running package *)

(** C6 (as stated, refuted): for ("RUN", [15000, 1, 75]) the calories
    rendered to three decimals are "797.805", not "750.106". *)
Lemma run_example_not_750 :
  match read_package "RUN" [PInt 15000; PInt 1; PInt 75] with
  | Ok t =>
      match get_spent_calories t with
      | Ok (PFloat c) => fmt_float 3 c = "797.805" /\ fmt_float 3 c <> "750.106"
      | _ => False
      end
  | Err _ => False
  end.
Proof.
  vm_compute. split; [reflexivity|discriminate].
Qed.

(** C6 (amended): ("RUN", [15000, 1, 75]) builds a [Running] record whose
    distance and mean speed are the float 9.75 and whose calories are the
    float 797.805 (the double nearest to (18 * 9.75 + 1.79) * 75 / 1000 *
    1 * 60); the printed line shows 9.750, 9.750 and 797.805. *)
Theorem run_example_values :
  read_package "RUN" [PInt 15000; PInt 1; PInt 75] =
    Ok (Running (PInt 15000) (PInt 1) (PInt 75)) /\
  get_distance (Running (PInt 15000) (PInt 1) (PInt 75)) = Ok (PFloat (lit 975 100)) /\
  get_mean_speed (Running (PInt 15000) (PInt 1) (PInt 75)) = Ok (PFloat (lit 975 100)) /\
  get_spent_calories (Running (PInt 15000) (PInt 1) (PInt 75)) =
    Ok (PFloat (lit 797805 1000)) /\
  run_packages [("RUN", [PInt 15000; PInt 1; PInt 75])] [] =
    Finished ["Тип тренировки: Running; Длительность: 1.000 ч.; Дистанция: 9.750 км; Ср. скорость: 9.750 км/ч; Потрачено ккал: 797.805."].
Proof.
  split; [reflexivity|].
  split; [vm_compute; reflexivity|].
  split; [vm_compute; reflexivity|].
  split; [vm_compute; reflexivity|].
  vm_compute. reflexivity.
Qed.

(** ** Determinism *)

Lemma main_line (t : Training) (out : list string) :
  main t out =
    match process_record t with
    | Ok line => Finished (out ++ [line])
    | Err e => Raised e out
    end.
Proof. reflexivity. Qed.

(** C9: the pipeline has no hidden state.  Running the driver on the same
    package twice prints the same line twice (or raises the same exception
    before printing anything), and printing one record twice gives two
    identical lines. *)
Theorem pipeline_deterministic :
  (forall (code : string) (data : list pynum),
     (exists line, process code data = Ok line /\
        run_packages [(code, data); (code, data)] [] = Finished [line; line]) \/
     (exists e, process code data = Err e /\
        run_packages [(code, data); (code, data)] [] = Raised e [])) /\
  (forall t : Training,
     (exists line, process_record t = Ok line /\
        main t [] = Finished [line] /\ main t [line] = Finished [line; line]) \/
     (exists e, process_record t = Err e /\ main t [] = Raised e [])).
Proof.
  split.
  - intros code data. unfold process. cbn [run_packages].
    destruct (read_package code data) as [t|e]; cbn [bind].
    + destruct (process_record t) as [line|e] eqn:E.
      * left. exists line. split; [reflexivity|].
        rewrite main_line, E. cbn. rewrite main_line, E. reflexivity.
      * right. exists e. split; [reflexivity|].
        rewrite main_line, E. reflexivity.
    + right. exists e. split; reflexivity.
  - intro t. rewrite !main_line.
    destruct (process_record t) as [line|e] eqn:E.
    + left. exists line. split; [reflexivity|]. split; [reflexivity|].
      rewrite main_line, E. reflexivity.
    + right. exists e. split; reflexivity.
Qed.

(** * Further properties of the module *)

(** ** Dispatch *)

Lemma make_Running_ok (data : list pynum) (t : Training) :
  make_Running data = Ok t <-> exists a d w, data = [a; d; w] /\ t = Running a d w.
Proof.
  split.
  - destruct data as [|a [|d [|w [|x data]]]]; cbn; intro H; try discriminate H.
    injection H as <-. eauto.
  - intros (a & d & w & -> & ->). reflexivity.
Qed.

Lemma make_SportsWalking_ok (data : list pynum) (t : Training) :
  make_SportsWalking data = Ok t <->
  exists a d w h, data = [a; d; w; h] /\ t = SportsWalking a d w h.
Proof.
  split.
  - destruct data as [|a [|d [|w [|h [|x data]]]]]; cbn; intro H; try discriminate H.
    injection H as <-. eauto 6.
  - intros (a & d & w & h & -> & ->). reflexivity.
Qed.

Lemma make_Swimming_ok (data : list pynum) (t : Training) :
  make_Swimming data = Ok t <->
  exists a d w lp cp, data = [a; d; w; lp; cp] /\ t = Swimming a d w lp cp.
Proof.
  split.
  - destruct data as [|a [|d [|w [|lp [|cp [|x data]]]]]]; cbn; intro H; try discriminate H.
    injection H as <-. eauto 7.
  - intros (a & d & w & lp & cp & -> & ->). reflexivity.
Qed.

(** [read_package] on each known code, as a [dict] lookup followed by the
    constructor call. *)
Lemma read_package_known (data : list pynum) :
  read_package "SWM" data = make_Swimming data /\
  read_package "RUN" data = make_Running data /\
  read_package "WLK" data = make_SportsWalking data.
Proof. split; [reflexivity|split; reflexivity]. Qed.

Lemma read_package_unknown_code_gen (code : string) (data : list pynum) :
  code <> "SWM" -> code <> "RUN" -> code <> "WLK" ->
  read_package code data = Err (ValueError ("Неизвестный тип тренировки: " ++ code)).
Proof.
  intros H1 H2 H3. unfold read_package, workout_dict. cbn [dict_get].
  destruct (String.eqb_spec code "SWM"); [contradiction|].
  destruct (String.eqb_spec code "RUN"); [contradiction|].
  destruct (String.eqb_spec code "WLK"); [contradiction|].
  reflexivity.
Qed.

Lemma read_package_ok_cases (code : string) (data : list pynum) (t : Training) :
  read_package code data = Ok t <->
  (code = "RUN" /\ exists a d w, data = [a; d; w] /\ t = Running a d w) \/
  (code = "WLK" /\ exists a d w h, data = [a; d; w; h] /\ t = SportsWalking a d w h) \/
  (code = "SWM" /\ exists a d w lp cp,
     data = [a; d; w; lp; cp] /\ t = Swimming a d w lp cp).
Proof.
  destruct (read_package_known data) as (ES & ER & EW).
  split.
  - intro H.
    destruct (String.eqb_spec code "SWM") as [->|NS];
      [rewrite ES, make_Swimming_ok in H; right; right; auto|].
    destruct (String.eqb_spec code "RUN") as [->|NR];
      [rewrite ER, make_Running_ok in H; left; auto|].
    destruct (String.eqb_spec code "WLK") as [->|NW];
      [rewrite EW, make_SportsWalking_ok in H; right; left; auto|].
    rewrite read_package_unknown_code_gen in H by assumption. discriminate H.
  - intros [[-> H]|[[-> H]|[-> H]]].
    + rewrite ER. apply make_Running_ok. exact H.
    + rewrite EW. apply make_SportsWalking_ok. exact H.
    + rewrite ES. apply make_Swimming_ok. exact H.
Qed.

(** X1: [read_package] returns a record exactly when the code is known and
    the data has that class's number of arguments: "RUN" with three values
    gives [Running], "WLK" with four gives [SportsWalking] and "SWM" with
    five gives [Swimming], the values taken in order. *)
Theorem read_package_ok_iff (code : string) (data : list pynum) (t : Training) :
  read_package code data = Ok t <->
  (code = "RUN" /\ exists a d w, data = [a; d; w] /\ t = Running a d w) \/
  (code = "WLK" /\ exists a d w h, data = [a; d; w; h] /\ t = SportsWalking a d w h) \/
  (code = "SWM" /\ exists a d w lp cp,
     data = [a; d; w; lp; cp] /\ t = Swimming a d w lp cp).
Proof. apply read_package_ok_cases. Qed.

(** X2: with a known code and a data list of the wrong length (not 3 for
    "RUN", 4 for "WLK", 5 for "SWM"), [read_package] raises a [TypeError]
    from the constructor call. *)
Theorem read_package_arity_error (code : string) (data : list pynum) :
  (code = "RUN" /\ length data <> 3%nat) \/
  (code = "WLK" /\ length data <> 4%nat) \/
  (code = "SWM" /\ length data <> 5%nat) ->
  exists msg, read_package code data = Err (TypeError msg).
Proof.
  destruct (read_package_known data) as (ES & ER & EW).
  intros [[-> L]|[[-> L]|[-> L]]].
  - rewrite ER. unfold make_Running.
    destruct data as [|a [|d [|w [|x data]]]]; cbn in L |- *; eauto; lia.
  - rewrite EW. unfold make_SportsWalking.
    destruct data as [|a [|d [|w [|h [|x data]]]]]; cbn in L |- *; eauto; lia.
  - rewrite ES. unfold make_Swimming.
    destruct data as [|a [|d [|w [|lp [|cp [|x data]]]]]]; cbn in L |- *; eauto; lia.
Qed.

Lemma read_package_arity_error_witness :
  exists msg, read_package "RUN" [PInt 15000; PInt 1] = Err (TypeError msg).
Proof.
  apply read_package_arity_error. left. split; [reflexivity|discriminate].
Defined.

(** ** No [NotImplementedError] outside the base class *)

Lemma bind_not_nie {A B : Type} (r : res A) (f : A -> res B) :
  not_nie r = true -> (forall a, not_nie (f a) = true) -> not_nie (bind r f) = true.
Proof. destruct r as [a|e]; cbn [bind]; auto. Qed.

Lemma Ok_not_nie {A : Type} (a : A) : not_nie (Ok a) = true.
Proof. reflexivity. Qed.

Lemma to_float_not_nie (x : pynum) : not_nie (to_float x) = true.
Proof.
  destruct x as [z|f]; [|reflexivity].
  cbn [to_float]. unfold int_to_float. destruct (round_result _ _); reflexivity.
Qed.

Create HintDb nie.
#[export] Hint Resolve bind_not_nie Ok_not_nie to_float_not_nie : nie.

Lemma float_binop_not_nie (op : float -> float -> float) (x y : pynum) :
  not_nie (float_binop op x y) = true.
Proof. unfold float_binop. eauto with nie. Qed.

Lemma py_mul_not_nie (x y : pynum) : not_nie (py_mul x y) = true.
Proof. destruct x, y; cbn [py_mul]; auto using float_binop_not_nie. Qed.

Lemma py_add_not_nie (x y : pynum) : not_nie (py_add x y) = true.
Proof. destruct x, y; cbn [py_add]; auto using float_binop_not_nie. Qed.

Lemma py_truediv_not_nie (x y : pynum) : not_nie (py_truediv x y) = true.
Proof.
  destruct x as [a|fx], y as [b|fy]; cbn [py_truediv].
  1: { unfold int_truediv. destruct (b =? 0)%Z; [reflexivity|].
       destruct (round_result _ _); reflexivity. }
  all: apply bind_not_nie; [apply to_float_not_nie|intro].
  all: apply bind_not_nie; [apply to_float_not_nie|intro].
  all: destruct (is_zero _); reflexivity.
Qed.

Lemma py_pow2_not_nie (x : pynum) : not_nie (py_pow2 x) = true.
Proof.
  destruct x as [a|f]; [reflexivity|]. cbn [py_pow2].
  apply bind_not_nie; [|intro; reflexivity].
  unfold float_square. destruct f; try reflexivity.
  destruct (fmul _ _); reflexivity.
Qed.

#[export] Hint Resolve py_mul_not_nie py_add_not_nie py_truediv_not_nie
  py_pow2_not_nie : nie.

Lemma get_mean_speed_not_nie (t : Training) : not_nie (get_mean_speed t) = true.
Proof.
  destruct t; cbn [get_mean_speed]; unfold get_distance;
    repeat (apply bind_not_nie; [eauto with nie|intro]); eauto with nie.
Qed.

#[export] Hint Resolve get_mean_speed_not_nie : nie.

Ltac solve_not_nie :=
  repeat (apply bind_not_nie; [eauto with nie|intro]); eauto with nie.

(** X3: a record built by [read_package] is never of the base class, so its
    [get_spent_calories] never raises [NotImplementedError]. *)
Theorem read_package_no_base (code : string) (data : list pynum) (t : Training) :
  read_package code data = Ok t ->
  class_name t <> "Training" /\
  forall args, get_spent_calories t <> Err (NotImplementedError args).
Proof.
  intro H. apply read_package_ok_cases in H.
  assert (N : class_name t <> "Training" /\ not_nie (get_spent_calories t) = true).
  { destruct H as [[_ (a & d & w & _ & ->)]
                  |[[_ (a & d & w & h & _ & ->)]
                   |[_ (a & d & w & lp & cp & _ & ->)]]];
      (split; [discriminate|]); cbn [get_spent_calories]; solve_not_nie. }
  destruct N as [C N]. split; [exact C|].
  intros args E. rewrite E in N. discriminate N.
Qed.

Lemma read_package_no_base_witness :
  read_package "WLK" [PInt 9000; PInt 1; PInt 75; PInt 180] =
    Ok (SportsWalking (PInt 9000) (PInt 1) (PInt 75) (PInt 180)) /\
  class_name (SportsWalking (PInt 9000) (PInt 1) (PInt 75) (PInt 180)) <> "Training".
Proof.
  split; [reflexivity|].
  apply (read_package_no_base "WLK" [PInt 9000; PInt 1; PInt 75; PInt 180]).
  reflexivity.
Defined.

(** ** Errors of [show_training_info] *)

Lemma get_distance_float (t : Training) (dist : pynum) :
  get_distance t = Ok dist -> is_float dist = true.
Proof.
  unfold get_distance. destruct (py_mul (action t) (LEN_STEP t)) as [x|e]; cbn [bind].
  - apply py_truediv_float.
  - intro E. discriminate E.
Qed.

(** X4: a record of any class whose duration is zero ([0] or [0.0]) makes
    [show_training_info] raise [ZeroDivisionError], provided the dividend
    of the mean speed is computed: the distance, and for [Swimming] the
    pool length [length_pool * count_pool / 1000]; the mean speed divides
    by the duration before the calories are computed. *)
Theorem show_training_info_zero_duration (t : Training) (dist : pynum) :
  py_is_zero (duration t) = true ->
  get_distance t = Ok dist ->
  (forall a d w lp cp, t = Swimming a d w lp cp ->
     exists q, (x <- py_mul lp cp ;; py_truediv x M_IN_KM) = Ok q) ->
  show_training_info t = Err ZeroDivisionError.
Proof.
  intros Hd Hdist Hsw. unfold show_training_info. rewrite Hdist. cbn [bind].
  assert (M : get_mean_speed t = Err ZeroDivisionError).
  { destruct t as [a d w|a d w|a d w h|a d w lp cp]; cbn [duration] in Hd;
      cbn [get_mean_speed].
    1-3: rewrite Hdist; cbn [bind];
         exact (py_truediv_by_zero dist d (get_distance_float _ _ Hdist) Hd).
    destruct (Hsw a d w lp cp eq_refl) as [q Q].
    destruct (py_mul lp cp) as [x|e]; cbn [bind] in Q |- *; [|discriminate Q].
    rewrite Q. cbn [bind].
    exact (py_truediv_by_zero q d (py_truediv_float _ _ _ Q) Hd). }
  rewrite M. reflexivity.
Qed.

Lemma show_training_info_zero_duration_witness :
  show_training_info (Running (PInt 15000) (PInt 0) (PInt 75)) = Err ZeroDivisionError.
Proof.
  apply (show_training_info_zero_duration _ (PFloat (lit 975 100))).
  - reflexivity.
  - vm_compute. reflexivity.
  - intros a d w lp cp E. discriminate E.
Defined.

(** X5: for a base [Training] record whose distance is computed and whose
    duration converts to a nonzero float, [show_training_info] raises the
    [NotImplementedError] of [get_spent_calories], and [main] prints
    nothing and raises it. *)
Theorem show_training_info_base (a d w dist : pynum) (fd : float) (out : list string) :
  get_distance (Base a d w) = Ok dist ->
  to_float d = Ok fd -> is_zero fd = false ->
  show_training_info (Base a d w) =
    Err (NotImplementedError
           ["Метод get_spent_calories не был переопределен в классе "; "Training"]) /\
  main (Base a d w) out =
    Raised (NotImplementedError
              ["Метод get_spent_calories не был переопределен в классе "; "Training"]) out.
Proof.
  intros Hdist Hd Zd.
  destruct dist as [z|fdist]; [discriminate (get_distance_float _ _ Hdist)|].
  assert (M : get_mean_speed (Base a d w) = Ok (PFloat (fdiv fdist fd)))
    by (apply get_mean_speed_spec; [discriminate|exact Hdist|exact Hd|exact Zd]).
  assert (E : show_training_info (Base a d w) =
    Err (NotImplementedError
           ["Метод get_spent_calories не был переопределен в классе "; "Training"])).
  { unfold show_training_info. rewrite Hdist. cbn [bind]. rewrite M. reflexivity. }
  split; [exact E|].
  unfold main, process_record. rewrite E. reflexivity.
Qed.

Lemma show_training_info_base_witness :
  show_training_info (Base (PInt 15000) (PInt 1) (PInt 75)) =
    Err (NotImplementedError
           ["Метод get_spent_calories не был переопределен в классе "; "Training"]).
Proof.
  apply (show_training_info_base (PInt 15000) (PInt 1) (PInt 75) (PFloat (lit 975 100))
           (lit 1 1) []).
  - vm_compute. reflexivity.
  - vm_compute. reflexivity.
  - vm_compute. reflexivity.
Defined.

(** ** The driver loop *)

Lemma run_packages_step (code : string) (data : list pynum) rest out :
  run_packages ((code, data) :: rest) out =
    match process code data with
    | Ok line => run_packages rest (out ++ [line])%list
    | Err e => Raised e out
    end.
Proof.
  cbn [run_packages]. unfold process.
  destruct (read_package code data) as [t|e]; cbn [bind]; [|reflexivity].
  rewrite main_line. destruct (process_record t); reflexivity.
Qed.

(** X8: the loop finishes exactly when every package is processed; the
    output is then the earlier output followed by one line per package, in
    the packages' order, each the message of its package. *)
Theorem run_packages_finished (ps : list (string * list pynum)) (out out' : list string) :
  run_packages ps out = Finished out' <->
  exists lines, out' = (out ++ lines)%list /\ Forall2 package_line ps lines.
Proof.
  revert out. induction ps as [|[code data] ps IH]; intro out.
  - cbn. split.
    + intro E. injection E as <-. exists []. rewrite app_nil_r. auto.
    + intros (lines & -> & F). inversion F. rewrite app_nil_r. reflexivity.
  - rewrite run_packages_step. unfold package_line at 1.
    destruct (process code data) as [line|e] eqn:P.
    + rewrite IH. split.
      * intros (lines & -> & F). exists (line :: lines).
        rewrite <- app_assoc. split; [reflexivity|].
        constructor; [exact P|exact F].
      * intros (lines & -> & F). inversion F as [|p l ps' ls' Hp F' Ep El]; subst.
        unfold package_line in Hp. cbn in Hp. rewrite P in Hp.
        injection Hp as <-. exists ls'. rewrite <- app_assoc. auto.
    + split; [intro E; discriminate E|].
      intros (lines & _ & F). inversion F as [|p l ps' ls' Hp]; subst.
      unfold package_line in Hp. cbn in Hp. rewrite P in Hp. discriminate Hp.
Qed.

(** X9: the loop raises [e] exactly when some package raises [e] while
    every package before it succeeds; the output then holds the lines of
    those earlier packages and nothing from the later ones. *)
Theorem run_packages_raised (ps : list (string * list pynum)) (out out' : list string)
    (e : exc) :
  run_packages ps out = Raised e out' <->
  exists ps1 p ps2 lines,
    ps = (ps1 ++ p :: ps2)%list /\ Forall2 package_line ps1 lines /\
    process (fst p) (snd p) = Err e /\ out' = (out ++ lines)%list.
Proof.
  revert out. induction ps as [|[code data] ps IH]; intro out.
  - cbn. split; [intro E; discriminate E|].
    intros (ps1 & p & ps2 & lines & E & _). destruct ps1; discriminate E.
  - rewrite run_packages_step.
    destruct (process code data) as [line|e'] eqn:P.
    + rewrite IH. split.
      * intros (ps1 & p & ps2 & lines & -> & F & Hp & ->).
        exists ((code, data) :: ps1), p, ps2, (line :: lines).
        rewrite <- app_assoc.
        split; [reflexivity|]. split; [constructor; [exact P|exact F]|].
        split; [exact Hp|reflexivity].
      * intros (ps1 & p & ps2 & lines & E & F & Hp & ->).
        destruct ps1 as [|p1 ps1]; cbn in E; injection E as E1 E2; subst.
        -- cbn in Hp. rewrite P in Hp. discriminate Hp.
        -- inversion F as [|p' l ps' ls' Hl F']; subst.
           unfold package_line in Hl. cbn in Hl. rewrite P in Hl. injection Hl as <-.
           exists ps1, p, ps2, ls'. rewrite <- app_assoc. auto.
    + split.
      * intro E. injection E as -> <-.
        exists [], (code, data), ps, []. rewrite app_nil_r. auto.
      * intros (ps1 & p & ps2 & lines & E & F & Hp & ->).
        destruct ps1 as [|p1 ps1]; cbn in E; injection E as E1 E2; subst.
        -- cbn in Hp. rewrite P in Hp. injection Hp as ->.
           inversion F. rewrite app_nil_r. reflexivity.
        -- inversion F as [|p' l ps' ls' Hl]; subst.
           unfold package_line in Hl. cbn in Hl. rewrite P in Hl. discriminate Hl.
Qed.
